(** * Stock Pulse: quote snapshots and the live price feed

    A shallow embedding of the quote-acquisition code of the extension:

    - [YahooFinance]        src/src/YahooFinance.ts (session bootstrap, the
                            retrying [request], [getQuote], the web socket);
    - [YahooFinanceGuarded] src/unnamed/part_000, the revision of the same
                            class whose [parseStockInformation] checks the
                            two responses before reading them;
    - [StockStatusBar]      src/unnamed/part_001, as far as the message
                            handler depends on it;
    - [Extension]           src/unnamed/part_002 (the module-level state and
                            the web-socket message handler);
    - [Indicator]           src/unnamed/part_001, the update indicator in
                            the text of the price item;
    - [Command]             src/unnamed/part_002, the command callback:
                            prompt, fetch, status bar, subscription.

    TypeScript types are erased at run time, and the payloads the code reads
    are [any]: every field therefore holds a JavaScript value, [jsval]. *)

From Stdlib Require Import String List ZArith Bool Lia Arith.
From Stdlib Require Import Floats.PrimFloat.
From Stdlib Require Import Numbers.DecimalString.
Import ListNotations.

Local Open Scope string_scope.
Set Warnings "-register-all".

(** ** JavaScript values *)

Module JS.

(** Numbers are IEEE 754 binary64, as in the language.  A [Date] is kept as
    the expression that built it: the program only stores dates and hands
    them to the status bar, it never computes with them. *)
Inductive jsval : Type :=
| VUndefined
| VNull
| VBool (b : bool)
| VNum (n : float)
| VStr (s : string)
| VArr (elts : list jsval)
| VObj (props : list (string * jsval))
| VDateOfSeconds (arg : jsval)    (* new Date(arg * 1000) *)
| VDateOfParseInt (arg : jsval).  (* new Date(parseInt(arg)) *)

Inductive exn : Type :=
| Error (msg : string)      (* new Error(msg) *)
| TypeError                 (* a property read on undefined or null, a call of a non-function *)
| AxiosError                (* a request that failed or whose status was not accepted *)
| LibraryError (name : string).

Inductive result (A : Type) : Type :=
| Ok (a : A)
| Throw (e : exn).
Arguments Ok {A} a.
Arguments Throw {A} e.

Definition rbind {A B} (r : result A) (k : A -> result B) : result B :=
  match r with
  | Ok a => k a
  | Throw e => Throw e
  end.

(** ToBoolean. *)
Definition truthy (v : jsval) : bool :=
  match v with
  | VUndefined | VNull => false
  | VBool b => b
  | VNum n => negb (is_zero n || is_nan n)
  | VStr s => match s with EmptyString => false | String _ _ => true end
  | VArr _ | VObj _ | VDateOfSeconds _ | VDateOfParseInt _ => true
  end.

Definition nullish (v : jsval) : bool :=
  match v with
  | VUndefined | VNull => true
  | _ => false
  end.

Definition is_number (v : jsval) : bool :=
  match v with
  | VNum _ => true
  | _ => false
  end.

Definition is_date (v : jsval) : bool :=
  match v with
  | VDateOfSeconds _ | VDateOfParseInt _ => true
  | _ => false
  end.

(** [a || b]: [b] is consulted only when [a] is falsy. *)
Definition or_else (a b : jsval) : jsval :=
  if truthy a then a else b.

(** An object is the list of its own properties; a parsed JSON object has
    each key once, so the first binding is the only one. *)
Fixpoint assoc (k : string) (props : list (string * jsval)) : jsval :=
  match props with
  | [] => VUndefined
  | (k', v) :: rest => if String.eqb k k' then v else assoc k rest
  end.

(** [v.k] for an identifier [k].  None of the names the program reads is a
    property of a primitive's or an array's prototype, so on those the read
    yields undefined. *)
Definition member (v : jsval) (k : string) : result jsval :=
  match v with
  | VUndefined | VNull => Throw TypeError
  | VObj props => Ok (assoc k props)
  | _ => Ok VUndefined
  end.

(** [v[0]]. *)
Definition index0 (v : jsval) : result jsval :=
  match v with
  | VUndefined | VNull => Throw TypeError
  | VArr elts => Ok (nth 0 elts VUndefined)
  | VObj props => Ok (assoc "0" props)
  | VStr (String c _) => Ok (VStr (String c EmptyString))
  | _ => Ok VUndefined
  end.

(** [v?.k] and [v?.[0]]. *)
Definition opt_member (v : jsval) (k : string) : jsval :=
  match member v k with
  | Ok x => x
  | Throw _ => VUndefined
  end.

Definition opt_index0 (v : jsval) : jsval :=
  match index0 v with
  | Ok x => x
  | Throw _ => VUndefined
  end.

(** [v.k1.k2...]. *)
Fixpoint path (v : jsval) (ks : list string) : result jsval :=
  match ks with
  | [] => Ok v
  | k :: ks' => rbind (member v k) (fun x => path x ks')
  end.

(** [v === s] for a string [s]. *)
Definition strict_eq_string (v : jsval) (s : string) : bool :=
  match v with
  | VStr s' => String.eqb s' s
  | _ => false
  end.

End JS.
Import JS.

Declare Scope res_scope.
Delimit Scope res_scope with res.
Notation "x <~ c ; k" := (rbind c (fun x => k))
  (at level 61, c at next level, right associativity) : res_scope.

(** ** The quote record (src/src/StockModel.ts) *)

Module StockModel.

Record StockPriceData : Type := {
  current : jsval;
  day_high : jsval;
  day_low : jsval;
  previous_close : jsval;
  day_volume : jsval;
  updated_at : jsval
}.

Record StockInformation : Type := {
  type : jsval;
  symbol : jsval;
  name : jsval;
  timezone : jsval;
  currency : jsval;
  exchange : jsval;
  sector : jsval;
  price : StockPriceData
}.

End StockModel.
Import StockModel.

(** ** The world outside: HTTP, the console, web sockets *)

Module World.

Record request : Type := {
  url : string;
  headers : list (string * jsval);
  params : list (string * jsval)
}.

(** The part of an Axios response the code reads: [response.status],
    [response.headers['set-cookie']] and [response.data]. *)
Record response : Type := {
  status : Z;
  set_cookie : jsval;
  data : jsval
}.

Inductive net_result : Type :=
| NetFail
| NetResponse (r : response).

Inductive level : Type := Log | Warn | Err.

Inductive ready_state : Type := CONNECTING | OPEN | CLOSING | CLOSED.

(** A socket and the ticker its handlers were registered for. *)
Record socket : Type := {
  readyState : ready_state;
  ticker_of : string
}.

Inductive event : Type :=
| HttpGet (n : nat) (req : request)
| Console (l : level) (msg : string) (err : option exn)
| WsNew (id : nat)
| WsClose (id : nat)
| WsSend (id : nat) (subscribe : list string)
| SetStockPrice (si : StockInformation)
| BlinkIndicator.

(** [net n req] is what the network answers to the [n]-th request of the
    run; [trace] is newest first; a socket's handle is its position in
    [sockets]. *)
Record env : Type := {
  net : nat -> request -> net_result;
  sent : nat;
  trace : list event;
  sockets : list socket
}.

Definition emit (e : event) (w : env) : env :=
  {| net := net w; sent := sent w; trace := e :: trace w; sockets := sockets w |}.

Definition set_sockets (l : list socket) (w : env) : env :=
  {| net := net w; sent := sent w; trace := trace w; sockets := l |}.

(** [axiosInstance.get(url, config)]: the promise rejects when the request
    fails or when [validateStatus] refuses the status. *)
Definition axios_get (req : request) (validateStatus : Z -> bool) (w : env)
  : result response * env :=
  let w' := {| net := net w; sent := S (sent w);
               trace := HttpGet (sent w) req :: trace w;
               sockets := sockets w |} in
  match net w (sent w) req with
  | NetFail => (Throw AxiosError, w')
  | NetResponse r =>
      if validateStatus (status r) then (Ok r, w') else (Throw AxiosError, w')
  end.

(** Axios's default [validateStatus]. *)
Definition default_validateStatus (status : Z) : bool :=
  ((200 <=? status) && (status <? 300))%Z.

Definition live (rs : ready_state) : bool :=
  match rs with
  | CONNECTING | OPEN => true
  | CLOSING | CLOSED => false
  end.

Fixpoint update_socket (i : nat) (f : socket -> socket) (l : list socket) : list socket :=
  match l, i with
  | [], _ => []
  | s :: rest, O => f s :: rest
  | s :: rest, S i' => s :: update_socket i' f rest
  end.

Definition with_readyState (rs : ready_state) (s : socket) : socket :=
  {| readyState := rs; ticker_of := ticker_of s |}.

(** [new WebSocket(url)]: a fresh socket, connecting. *)
Definition ws_new (ticker : string) (w : env) : nat * env :=
  let id := length (sockets w) in
  (id, emit (WsNew id)
         (set_sockets (sockets w ++ [{| readyState := CONNECTING; ticker_of := ticker |}]) w)).

(** [socket.close()]: starts the closing handshake of a socket that is
    connecting or open, and does nothing otherwise. *)
Definition close_socket (s : socket) : socket :=
  if live (readyState s) then with_readyState CLOSING s else s.

Definition ws_close (id : nat) (w : env) : env :=
  emit (WsClose id) (set_sockets (update_socket id close_socket (sockets w)) w).

(** What the environment does to a socket: the handshake completes, or the
    connection ends (closing handshake done, or the transport dropped). *)
Definition open_socket (s : socket) : socket :=
  match readyState s with
  | CONNECTING => with_readyState OPEN s
  | _ => s
  end.

Definition end_socket (s : socket) : socket :=
  with_readyState CLOSED s.

Definition is_connecting (s : socket) : bool :=
  match readyState s with
  | CONNECTING => true
  | _ => false
  end.

Definition is_closed (s : socket) : bool :=
  match readyState s with
  | CLOSED => true
  | _ => false
  end.

Definition fresh (net : nat -> request -> net_result) : env :=
  {| net := net; sent := 0; trace := []; sockets := [] |}.

Definition live_connections (w : env) : nat :=
  length (filter (fun s => live (readyState s)) (sockets w)).

End World.
Import World.

(** ** Programs: state passing with exceptions

    A thrown exception keeps the state reached so far, as in the language. *)

Definition prog (S A : Type) : Type := S -> result A * S.

Definition ret {S A} (a : A) : prog S A := fun s => (Ok a, s).

Definition throw {S A} (e : exn) : prog S A := fun s => (Throw e, s).

Definition bind {S A B} (c : prog S A) (k : A -> prog S B) : prog S B :=
  fun s =>
    match c s with
    | (Ok a, s') => k a s'
    | (Throw e, s') => (Throw e, s')
    end.

Definition try_catch {S A} (c : prog S A) (handler : exn -> prog S A) : prog S A :=
  fun s =>
    match c s with
    | (Ok a, s') => (Ok a, s')
    | (Throw e, s') => handler e s'
    end.

Definition lift_result {S A} (r : result A) : prog S A := fun s => (r, s).

Declare Scope prog_scope.
Delimit Scope prog_scope with prog.
Notation "x <- c ;; k" := (bind c (fun x => k))
  (at level 61, c at next level, right associativity) : prog_scope.
Notation "c ;; k" := (bind c (fun _ => k))
  (at level 61, right associativity) : prog_scope.

Definition YAHOO_COOKIE_URL := "https://fc.yahoo.com/".
Definition YAHOO_CRUMB_URL := "https://query1.finance.yahoo.com/v1/test/getcrumb".
Definition YAHOO_QUOTE_URL := "https://query2.finance.yahoo.com/v10/finance/quoteSummary/".
Definition YAHOO_PRICE_URL := "https://query2.finance.yahoo.com/v8/finance/chart/".
Definition USER_AGENT := "Mozilla/5.0 (Macintosh; Intel Mac OS X 10_10_1) AppleWebKit/537.36 (KHTML, like Gecko) Chrome/39.0.2171.95 Safari/537.36".

(** The two requests of the session bootstrap. *)
Definition cookie_request : request :=
  {| url := YAHOO_COOKIE_URL;
     headers := [("User-Agent", VStr USER_AGENT)];
     params := [] |}.

Definition crumb_request (cookie : jsval) : request :=
  {| url := YAHOO_CRUMB_URL;
     headers := [("Cookie", cookie); ("User-Agent", VStr USER_AGENT)];
     params := [] |}.

Definition string_of_nat (n : nat) : string :=
  NilEmpty.string_of_uint (Nat.to_uint n).

(** ** src/src/YahooFinance.ts *)

Module YahooFinance.

(** The instance: [this.cookie], [this.crumb], [this.webSocket] (a socket
    handle, or null), together with the world it acts on. *)
Record t : Type := {
  cookie : jsval;
  crumb : jsval;
  webSocket : option nat;
  world : env
}.

Definition set_cookie_field (c : jsval) (s : t) : t :=
  {| cookie := c; crumb := crumb s; webSocket := webSocket s; world := world s |}.

Definition set_crumb_field (c : jsval) (s : t) : t :=
  {| cookie := cookie s; crumb := c; webSocket := webSocket s; world := world s |}.

Definition set_webSocket (o : option nat) (s : t) : t :=
  {| cookie := cookie s; crumb := crumb s; webSocket := o; world := world s |}.

Definition set_world (w : env) (s : t) : t :=
  {| cookie := cookie s; crumb := crumb s; webSocket := webSocket s; world := w |}.

(** The instance the constructor builds. *)
Definition new (w : env) : t :=
  {| cookie := VNull; crumb := VNull; webSocket := None; world := w |}.

Definition in_world {A} (f : env -> result A * env) : prog t A :=
  fun s => let (r, w) := f (world s) in (r, set_world w s).

Definition console (l : level) (msg : string) (err : option exn) : prog t unit :=
  fun s => (Ok tt, set_world (emit (Console l msg err) (world s)) s).

Definition get (req : request) (validateStatus : Z -> bool) : prog t response :=
  in_world (axios_get req validateStatus).

Local Open Scope prog_scope.

Definition fetchCookie : prog t jsval :=
  response <- get cookie_request (fun status => (status =? 404)%Z) ;;
  ret (or_else (opt_index0 (set_cookie response)) (VStr "")).

Definition fetchCrumb : prog t jsval :=
  fun s =>
    if negb (truthy (cookie s)) then (Throw (Error "Cookie not set"), s)
    else
      (response <- get (crumb_request (cookie s)) default_validateStatus ;;
       ret (data response)) s.

Definition initialize : prog t unit :=
  try_catch
    (c <- fetchCookie ;;
     (fun s => (Ok tt, set_cookie_field c s)) ;;
     k <- fetchCrumb ;;
     (fun s => (Ok tt, set_crumb_field k s)) ;;
     console Log "YahooFinance initialized" None)
    (fun error =>
       console Err "Failed to initialize Yahoo Finance API:" (Some error) ;;
       throw (Error "YahooFinance initialization failed")).

Definition maxAttempts : nat := 3.

(** The request [request] sends, with the cookie and the crumb the instance
    holds at that moment, and the statuses it accepts. *)
Definition data_request (url : string) (params : list (string * jsval)) (s : t) : request :=
  {| World.url := url;
     headers := [("Cookie", cookie s); ("User-Agent", VStr USER_AGENT)];
     World.params := ("crumb", crumb s) :: params |}.

Definition validateStatus (status : Z) : bool :=
  ((200 <=? status) && (status <? 300) || (status =? 404))%Z.

(** The loop of [request]: [attempts] counts the failed attempts so far and
    [remaining] is [maxAttempts - attempts], the number of iterations the
    [while] still allows.  The [try] covers the request only: what
    [initialize] throws inside the [catch] block leaves the loop. *)
Fixpoint request_loop (url : string) (params : list (string * jsval))
    (attempts remaining : nat) : prog t response :=
  match remaining with
  | O => throw (Error "Failed to fetch data after multiple attempts")
  | S remaining' =>
      try_catch
        (fun s => get (data_request url params s) validateStatus s)
        (fun error =>
           console Err ("Failed to fetch data. Retrying... (" ++ string_of_nat (attempts + 1)
                          ++ "/" ++ string_of_nat maxAttempts ++ ")") (Some error) ;;
           initialize ;;
           request_loop url params (S attempts) remaining')
  end.

Definition request (url : string) (params : list (string * jsval)) : prog t response :=
  request_loop url params 0 maxAttempts.

Definition fetchTickerQuote (symbol : string) : prog t response :=
  request (YAHOO_QUOTE_URL ++ symbol)
    [("modules", VStr "quoteType,summaryDetail,assetProfile");
     ("corsDomain", VStr "finance.yahoo.com");
     ("formatted", VStr "false");
     ("symbol", VStr symbol)].

Definition fetchTickerPrice (symbol : string) : prog t response :=
  request (YAHOO_PRICE_URL ++ symbol)
    [("range", VStr "1d"); ("interval", VStr "1d"); ("includePrePost", VStr "false")].

Local Open Scope res_scope.

Definition parseStockInformation (quoteResponse priceResponse : response)
  : result StockInformation :=
  quoteResult <~ rbind (path (data quoteResponse) ["quoteSummary"; "result"]) index0 ;
  priceResult <~ rbind (path (data priceResponse) ["chart"; "result"]) index0 ;
  type_ <~ path quoteResult ["quoteType"; "quoteType"] ;
  symbol_ <~ path quoteResult ["quoteType"; "symbol"] ;
  longName <~ path quoteResult ["quoteType"; "longName"] ;
  name_ <~ (if truthy longName then Ok longName
            else shortName <~ path quoteResult ["quoteType"; "shortName"] ;
                 Ok (or_else shortName (VStr ""))) ;
  timeZoneFullName <~ path quoteResult ["quoteType"; "timeZoneFullName"] ;
  currency_ <~ path quoteResult ["summaryDetail"; "currency"] ;
  fullExchangeName <~ path priceResult ["meta"; "fullExchangeName"] ;
  exchange_ <~ (if truthy fullExchangeName then Ok fullExchangeName
                else exchangeName <~ path priceResult ["meta"; "exchangeName"] ;
                     Ok (or_else exchangeName VNull)) ;
  assetProfile <~ member quoteResult "assetProfile" ;
  regularMarketPrice <~ path priceResult ["meta"; "regularMarketPrice"] ;
  dayHigh <~ path quoteResult ["summaryDetail"; "dayHigh"] ;
  dayLow <~ path quoteResult ["summaryDetail"; "dayLow"] ;
  regularMarketPreviousClose <~ path quoteResult ["summaryDetail"; "regularMarketPreviousClose"] ;
  regularMarketVolume <~ path priceResult ["meta"; "regularMarketVolume"] ;
  regularMarketTime <~ path priceResult ["meta"; "regularMarketTime"] ;
  Ok {| type := type_;
        symbol := symbol_;
        name := name_;
        timezone := or_else timeZoneFullName (VStr "");
        currency := or_else currency_ VNull;
        exchange := exchange_;
        sector := or_else (opt_member assetProfile "sector") VNull;
        price := {| current := or_else regularMarketPrice (VNum 0);
                    day_high := or_else dayHigh (VNum 0);
                    day_low := or_else dayLow (VNum 0);
                    previous_close := or_else regularMarketPreviousClose (VNum 0);
                    day_volume := or_else regularMarketVolume (VNum 0);
                    updated_at := VDateOfSeconds regularMarketTime |} |}.

Local Close Scope res_scope.

Definition not_initialized : exn :=
  Error "YahooFinance is not initialized. Call initialize() first.".

(** The result is [Some] record, or [None] for the [null] of an unknown symbol. *)
Definition getQuote (symbol : string) : prog t (option StockInformation) :=
  fun s =>
    if negb (truthy (crumb s)) || negb (truthy (cookie s)) then (Throw not_initialized, s)
    else
      (quoteResponse <- fetchTickerQuote symbol ;;
       if (status quoteResponse =? 404)%Z then
         console Warn ("Quote not found for ticker symbol: " ++ symbol) None ;;
         ret None
       else
         priceResponse <- fetchTickerPrice symbol ;;
         stockInformation <- lift_result (parseStockInformation quoteResponse priceResponse) ;;
         ret (Some stockInformation)) s.

(** [this.webSocket.onopen]: the subscription goes out on whatever socket
    [this.webSocket] names when the event fires. *)
Definition onopen (ticker : string) : prog t unit :=
  fun s =>
    match webSocket s with
    | Some id => (Ok tt, set_world (emit (WsSend id [ticker]) (world s)) s)
    | None => (Ok tt, s)
    end.

Definition subscribeToStockPrice (ticker : string) : prog t unit :=
  fun s =>
    let s1 := match webSocket s with
              | Some old => set_world (ws_close old (world s)) s
              | None => s
              end in
    let (id, w) := ws_new ticker (world s1) in
    (Ok tt, set_webSocket (Some id) (set_world w s1)).

Definition dispose : prog t unit :=
  fun s =>
    let s1 := match webSocket s with
              | Some id => set_world (ws_close id (world s)) s
              | None => s
              end in
    console Log "YahooFinance disposed" None s1.

(** *** The instance over time

    Calls of the public methods, interleaved with the events of the sockets
    the instance created.  An ['open'] event fires on a connecting socket,
    a ['close'] event on a socket that is not closed yet.  The [onMessage]
    callback belongs to the caller. *)
Inductive call : Type :=
| Initialize
| GetQuote (symbol : string)
| Subscribe (ticker : string)
| Dispose
| SocketOpen (id : nat)
| SocketClose (id : nat)
| SocketError (id : nat).

Definition step (c : call) (s : t) : t :=
  match c with
  | Initialize => snd (initialize s)
  | GetQuote symbol => snd (getQuote symbol s)
  | Subscribe ticker => snd (subscribeToStockPrice ticker s)
  | Dispose => snd (dispose s)
  | SocketOpen id =>
      match nth_error (sockets (world s)) id with
      | Some sk =>
          if is_connecting sk then
            snd (onopen (ticker_of sk)
                   (set_world (set_sockets (update_socket id open_socket (sockets (world s)))
                                 (world s)) s))
          else s
      | None => s
      end
  | SocketClose id =>
      match nth_error (sockets (world s)) id with
      | Some sk =>
          if is_closed sk then s
          else
            snd (console Log "WebSocket connection closed" None
                   (set_world (set_sockets (update_socket id end_socket (sockets (world s)))
                                 (world s)) s))
      | None => s
      end
  | SocketError id =>
      match nth_error (sockets (world s)) id with
      | Some _ => snd (console Err "WebSocket error:" None s)
      | None => s
      end
  end.

Definition run (cs : list call) (s : t) : t :=
  fold_left (fun s c => step c s) cs s.

End YahooFinance.

(** ** src/unnamed/part_000: the revision with the response guard *)

Module YahooFinanceGuarded.

Record t : Type := {
  cookie : jsval;
  crumb : jsval;
  world : env
}.

Definition set_cookie_field (c : jsval) (s : t) : t :=
  {| cookie := c; crumb := crumb s; world := world s |}.

Definition set_crumb_field (c : jsval) (s : t) : t :=
  {| cookie := cookie s; crumb := c; world := world s |}.

Definition set_world (w : env) (s : t) : t :=
  {| cookie := cookie s; crumb := crumb s; world := w |}.

Definition new (w : env) : t :=
  {| cookie := VNull; crumb := VNull; world := w |}.

Definition in_world {A} (f : env -> result A * env) : prog t A :=
  fun s => let (r, w) := f (world s) in (r, set_world w s).

Definition console (l : level) (msg : string) (err : option exn) : prog t unit :=
  fun s => (Ok tt, set_world (emit (Console l msg err) (world s)) s).

Definition get (req : request) (validateStatus : Z -> bool) : prog t response :=
  in_world (axios_get req validateStatus).

Local Open Scope prog_scope.

Definition isValidResponse (status : Z) : bool :=
  ((200 <=? status) && (status <? 300) || (status =? 404))%Z.

Definition handleError {A} (message : string) (error : exn) : prog t A :=
  console Err message (Some error) ;;
  throw (Error message).

Definition extractCookie (response : World.response) : jsval :=
  or_else (opt_index0 (set_cookie response)) (VStr "").

Definition fetchCookie : prog t jsval :=
  try_catch
    (response <- get cookie_request isValidResponse ;;
     ret (extractCookie response))
    (handleError "Failed to fetch cookie").

Definition extractCrumb (response : World.response) : result jsval :=
  if negb (status response =? 200)%Z then Throw (Error "Failed to get crumb")
  else Ok (data response).

Definition fetchCrumb : prog t jsval :=
  fun s =>
    if negb (truthy (cookie s)) then (Throw (Error "Cookie not set"), s)
    else
      try_catch
        (response <- get (crumb_request (cookie s)) default_validateStatus ;;
         lift_result (extractCrumb response))
        (handleError "Failed to fetch crumb") s.

Definition initialize : prog t unit :=
  try_catch
    (c <- fetchCookie ;;
     (fun s => (Ok tt, set_cookie_field c s)) ;;
     k <- fetchCrumb ;;
     (fun s => (Ok tt, set_crumb_field k s)))
    (fun error =>
       console Err "Failed to initialize Yahoo Finance API:" (Some error) ;;
       throw (Error "Initialization failed")).

Definition fetchTickerQuote (symbol : string) : prog t response :=
  fun s =>
    get {| url := YAHOO_QUOTE_URL ++ symbol;
           headers := [("Cookie", cookie s)];
           params := [("crumb", crumb s);
                      ("modules", VStr "quoteType,summaryDetail,assetProfile");
                      ("corsDomain", VStr "finance.yahoo.com");
                      ("formatted", VStr "false");
                      ("symbol", VStr symbol)] |}
        isValidResponse s.

Definition fetchTickerPrice (symbol : string) : prog t response :=
  get {| url := YAHOO_PRICE_URL ++ symbol;
         headers := [];
         params := [("range", VStr "1d"); ("interval", VStr "1d");
                    ("includePrePost", VStr "false")] |}
      isValidResponse.

(** The condition of the [if] in [parseStockInformation]. *)
Definition well_formed (quoteResponse priceResponse : response) : bool :=
  (status quoteResponse =? 200)%Z
  && truthy (opt_member (opt_member (data quoteResponse) "quoteSummary") "result")
  && (status priceResponse =? 200)%Z
  && truthy (opt_member (opt_member (data priceResponse) "chart") "result").

Local Open Scope res_scope.

(** The declared result type is [StockInformation | null].  The object
    literal of this revision has no [day_volume] and no [updated_at]: a read
    of either yields undefined, which is what the record holds for them. *)
Definition parseStockInformation (quoteResponse priceResponse : response) (symbol : string)
  : result (option StockInformation) :=
  if well_formed quoteResponse priceResponse then
    quoteResult <~ rbind (path (data quoteResponse) ["quoteSummary"; "result"]) index0 ;
    priceResult <~ rbind (path (data priceResponse) ["chart"; "result"]) index0 ;
    type_ <~ path quoteResult ["quoteType"; "quoteType"] ;
    symbol_ <~ path quoteResult ["quoteType"; "symbol"] ;
    longName <~ path quoteResult ["quoteType"; "longName"] ;
    name_ <~ (if truthy longName then Ok longName
              else shortName <~ path quoteResult ["quoteType"; "shortName"] ;
                   Ok (or_else shortName (VStr ""))) ;
    timeZoneFullName <~ path quoteResult ["quoteType"; "timeZoneFullName"] ;
    currency_ <~ path quoteResult ["summaryDetail"; "currency"] ;
    fullExchangeName <~ path priceResult ["meta"; "fullExchangeName"] ;
    exchange_ <~ (if truthy fullExchangeName then Ok fullExchangeName
                  else exchangeName <~ path priceResult ["meta"; "exchangeName"] ;
                       Ok (or_else exchangeName VNull)) ;
    assetProfile <~ member quoteResult "assetProfile" ;
    regularMarketPrice <~ path priceResult ["meta"; "regularMarketPrice"] ;
    dayHigh <~ path quoteResult ["summaryDetail"; "dayHigh"] ;
    dayLow <~ path quoteResult ["summaryDetail"; "dayLow"] ;
    regularMarketPreviousClose <~ path quoteResult ["summaryDetail"; "regularMarketPreviousClose"] ;
    Ok (Some
      {| type := type_;
         symbol := symbol_;
         name := name_;
         timezone := or_else timeZoneFullName (VStr "");
         currency := or_else currency_ VNull;
         exchange := exchange_;
         sector := or_else (opt_member assetProfile "sector") VNull;
         price := {| current := or_else regularMarketPrice (VNum 0);
                     day_high := or_else dayHigh (VNum 0);
                     day_low := or_else dayLow (VNum 0);
                     previous_close := or_else regularMarketPreviousClose (VNum 0);
                     day_volume := VUndefined;
                     updated_at := VUndefined |} |})
  else Throw (Error "Unexpected response format").

Local Close Scope res_scope.

Definition not_initialized : exn :=
  Error "YahooFinance is not initialized. Call initialize() first.".

Definition getQuote (symbol : string) : prog t (option StockInformation) :=
  fun s =>
    if negb (truthy (crumb s)) || negb (truthy (cookie s)) then (Throw not_initialized, s)
    else
      try_catch
        (quoteResponse <- fetchTickerQuote symbol ;;
         if (status quoteResponse =? 404)%Z then
           console Warn ("Quote not found for ticker symbol: " ++ symbol) None ;;
           ret None
         else
           priceResponse <- fetchTickerPrice symbol ;;
           lift_result (parseStockInformation quoteResponse priceResponse symbol))
        (handleError "Failed to fetch quote") s.

End YahooFinanceGuarded.

(** ** src/unnamed/part_001: the status bar, seen from the message handler *)

Module StockStatusBar.

(** [setStockPrice] calls [toFixed] on [price.current], [price.day_low] and
    [price.day_high], and [toLocaleTimeString] on [price.updated_at] unless
    it is null or undefined; each call throws a TypeError on a value without
    the method.  Everything else in it is string building. *)
Definition renders (si : StockInformation) : bool :=
  is_number (current (price si))
  && is_number (day_low (price si))
  && is_number (day_high (price si))
  && (nullish (updated_at (price si)) || is_date (updated_at (price si))).

Definition setStockPrice (si : StockInformation) (w : env) : result unit * env :=
  if renders si then (Ok tt, emit (SetStockPrice si) w) else (Throw TypeError, w).

Definition blinkIndicator (w : env) : result unit * env :=
  (Ok tt, emit BlinkIndicator w).

End StockStatusBar.

(** ** src/unnamed/part_002: module state and the message handler *)

Module Extension.

(** The module-level variables: [stockStatusBar] (null until the first
    quote is shown; only its presence matters here), [stockInformation]
    (undefined until the first quote) and [ws]. *)
Record t : Type := {
  stockStatusBar : bool;
  stockInformation : option StockInformation;
  ws : option nat;
  world : env
}.

Definition set_stockInformation (o : option StockInformation) (s : t) : t :=
  {| stockStatusBar := stockStatusBar s; stockInformation := o; ws := ws s; world := world s |}.

Definition set_ws (o : option nat) (s : t) : t :=
  {| stockStatusBar := stockStatusBar s; stockInformation := stockInformation s;
     ws := o; world := world s |}.

Definition set_world (w : env) (s : t) : t :=
  {| stockStatusBar := stockStatusBar s; stockInformation := stockInformation s;
     ws := ws s; world := w |}.

Definition init (w : env) : t :=
  {| stockStatusBar := false; stockInformation := None; ws := None; world := w |}.

Definition in_world {A} (f : env -> result A * env) : prog t A :=
  fun s => let (r, w) := f (world s) in (r, set_world w s).

Definition console (l : level) (msg : string) (err : option exn) : prog t unit :=
  fun s => (Ok tt, set_world (emit (Console l msg err) (world s)) s).

(** The five assignments of the handler (lines 205 to 209), on the decoded
    frame [content], an object given by its properties.  None of them can
    throw, so the record changes in one step. *)
Definition merge (content : list (string * jsval)) (si : StockInformation)
  : StockInformation :=
  {| type := type si;
     symbol := symbol si;
     name := name si;
     timezone := timezone si;
     currency := currency si;
     exchange := exchange si;
     sector := sector si;
     price := {| current := assoc "price" content;
                 day_high := or_else (assoc "dayHigh" content) (day_high (price si));
                 day_low := or_else (assoc "dayLow" content) (day_low (price si));
                 previous_close := previous_close (price si);
                 day_volume := or_else (assoc "dayVolume" content) (day_volume (price si));
                 updated_at := VDateOfParseInt (assoc "time" content) |} |}.

Section Handler.

(** Two library functions the handler calls: the global [atob], and
    [PricingData.decode(bytes).toJSON()] of protobufjs, which yields a plain
    object. *)
Variable atob : jsval -> result string.
Variable PricingData_decode_toJSON : list Byte.byte -> result (list (string * jsval)).

Local Open Scope prog_scope.

(** The ['message'] handler registered by [subscribeToStockPrice ticker].
    A Rocq string is a sequence of bytes, as the binary string [atob]
    returns; the loop copies it into [bytes]. *)
Definition on_message (ticker : string) (data : jsval) : prog t unit :=
  try_catch
    (binaryString <- lift_result (atob data) ;;
     content <- lift_result (PricingData_decode_toJSON (list_byte_of_string binaryString)) ;;
     fun s =>
       match stockInformation s with
       | None => console Err "Stock information is not available" None s
       | Some si =>
           if stockStatusBar s && strict_eq_string (assoc "id" content) ticker then
             let si' := merge content si in
             (in_world (StockStatusBar.setStockPrice si') ;;
              in_world StockStatusBar.blinkIndicator)
               (set_stockInformation (Some si') s)
           else (Ok tt, s)
       end)
    (fun error => console Err "Failed to process WebSocket message:" (Some error)).

Definition on_open (ticker : string) : prog t unit :=
  fun s =>
    match ws s with
    | Some cur => (Ok tt, set_world (emit (WsSend cur [ticker]) (world s)) s)
    | None => (Ok tt, s)
    end.

Definition on_error : prog t unit :=
  console Err "WebSocket error:" None.

Definition subscribeToStockPrice (ticker : string) : prog t unit :=
  fun s =>
    let s1 := match ws s with
              | Some old => set_world (ws_close old (world s)) s
              | None => s
              end in
    let (id, w) := ws_new ticker (world s1) in
    (Ok tt, set_ws (Some id) (set_world w s1)).

(** [deactivate]; disposing of the status bar items is the editor's
    business. *)
Definition deactivate : prog t unit :=
  fun s =>
    match ws s with
    | Some id => (Ok tt, set_world (ws_close id (world s)) s)
    | None => (Ok tt, s)
    end.

(** *** The module state over time

    The command subscribes; the sockets deliver their events.  A message
    reaches the handler of the socket it arrived on, which holds the ticker
    that socket was opened for. *)
Inductive call : Type :=
| Subscribe (ticker : string)
| Deactivate
| SocketOpen (id : nat)
| SocketMessage (id : nat) (data : jsval)
| SocketClose (id : nat)
| SocketError (id : nat).

Definition step (c : call) (s : t) : t :=
  match c with
  | Subscribe ticker => snd (subscribeToStockPrice ticker s)
  | Deactivate => snd (deactivate s)
  | SocketOpen id =>
      match nth_error (sockets (world s)) id with
      | Some sk =>
          if is_connecting sk then
            snd (on_open (ticker_of sk)
                   (set_world (set_sockets (update_socket id open_socket (sockets (world s)))
                                 (world s)) s))
          else s
      | None => s
      end
  | SocketMessage id data =>
      match nth_error (sockets (world s)) id with
      | Some sk => snd (on_message (ticker_of sk) data s)
      | None => s
      end
  | SocketClose id =>
      match nth_error (sockets (world s)) id with
      | Some sk =>
          if is_closed sk then s
          else set_world (set_sockets (update_socket id end_socket (sockets (world s)))
                            (world s)) s
      | None => s
      end
  | SocketError id =>
      match nth_error (sockets (world s)) id with
      | Some _ => snd (on_error s)
      | None => s
      end
  end.

Definition run (cs : list call) (s : t) : t :=
  fold_left (fun s c => step c s) cs s.

End Handler.

End Extension.

(** ** src/unnamed/part_001: the update indicator in the status-bar text *)

Module Indicator.

Fixpoint skip (n : nat) (text : string) : string :=
  match n, text with
  | O, _ => text
  | S n', String _ rest => skip n' rest
  | S _, EmptyString => EmptyString
  end.

(** [text.replace(pattern, replacement)] with a string pattern: the first
    occurrence is replaced, and a text without one comes back as it is.
    Neither marker below holds a dollar sequence that [replace] would
    expand in a replacement.  The markers are ASCII, so that searching the
    bytes of the text finds what searching its UTF-16 units finds. *)
Fixpoint replace (pattern replacement text : string) : string :=
  if prefix pattern text then replacement ++ skip (String.length pattern) text
  else match text with
       | EmptyString => EmptyString
       | String c rest => String c (replace pattern replacement rest)
       end.

Definition OUTLINE : string := "$(circle-outline)".
Definition FILLED : string := "$(circle-filled)".

(** The text the constructor gives the price item. *)
Definition initial_text : string := "- (-%) $(circle-outline)".

(** [blinkIndicator] on the text of the price item, and the callback it
    schedules. *)
Definition blinkIndicator (text : string) : string :=
  replace OUTLINE FILLED text.

Definition blinkIndicator_timeout (text : string) : string :=
  replace FILLED OUTLINE text.

End Indicator.

(** ** src/unnamed/part_002: the command, from the prompt to the subscription *)

Module Command.

(** Two calls into the editor that the world's trace has no entry for:
    [vscode.window.showErrorMessage], and [setStockSymbol] of the status
    bar (src/unnamed/part_001). *)
Inductive ui_event : Type :=
| ShowErrorMessage (message : string)
| SetStockSymbol (si : StockInformation).

(** The module state, and what the editor was asked to show, newest first. *)
Record t : Type := {
  ext : Extension.t;
  ui : list ui_event
}.

Definition init (w : env) : t :=
  {| ext := Extension.init w; ui := [] |}.

Definition set_ext (e : Extension.t) (s : t) : t :=
  {| ext := e; ui := ui s |}.

Definition in_ext {A} (c : prog Extension.t A) : prog t A :=
  fun s => let (r, e) := c (ext s) in (r, set_ext e s).

Definition showErrorMessage (message : string) : prog t unit :=
  fun s => (Ok tt, {| ext := ext s; ui := ShowErrorMessage message :: ui s |}).

(** [setStockSymbol] builds its tooltip with [price.previous_close.toFixed(2)],
    which throws a TypeError on a value without the method. *)
Definition setStockSymbol (si : StockInformation) : prog t unit :=
  fun s =>
    if is_number (previous_close (price si))
    then (Ok tt, {| ext := ext s; ui := SetStockSymbol si :: ui s |})
    else (Throw TypeError, s).

Local Open Scope prog_scope.

Definition updateStockStatusBar (si : StockInformation) : prog t unit :=
  (fun s =>
     (Ok tt, set_ext {| Extension.stockStatusBar := true;
                        Extension.stockInformation := Extension.stockInformation (ext s);
                        Extension.ws := Extension.ws (ext s);
                        Extension.world := Extension.world (ext s) |} s)) ;;
  setStockSymbol si ;;
  in_ext (Extension.in_world (StockStatusBar.setStockPrice si)) ;;
  in_ext (Extension.in_world StockStatusBar.blinkIndicator).

Section Activate.

(** [String.prototype.toUpperCase], a function of the language. *)
Variable toUpperCase : string -> string.

(** [fetchStockInformation]: a new instance of the class of
    src/src/YahooFinance.ts acts on the world for the time of the call; the
    console entry stands for the template string that holds the error. *)
Definition fetchStockInformation (ticker : string)
  : prog Extension.t (option StockInformation) :=
  try_catch
    (fun s =>
       let (r, yahooFinance) :=
         (YahooFinance.initialize ;; YahooFinance.getQuote (toUpperCase ticker))
           (YahooFinance.new (Extension.world s)) in
       (r, Extension.set_world (YahooFinance.world yahooFinance) s))
    (fun error =>
       Extension.console Err "Failed to fetch stock information: " (Some error) ;;
       ret None).

(** The callback of the command [stock-pulse.showStock]; [typed] is what the
    input box resolved to, [None] for undefined.  The awaits of the callback
    wait for HTTP responses only, which touch no module variable: the
    callback is taken as one step. *)
Definition showStock (typed : option string) : prog t unit :=
  match typed with
  | None | Some EmptyString =>
      showErrorMessage "Ticker symbol is required to fetch stock information."
  | Some ticker =>
      newStockInformation <- in_ext (fetchStockInformation ticker) ;;
      match newStockInformation with
      | None => showErrorMessage ("Failed to fetch stock information for " ++ ticker)
      | Some si =>
          in_ext (fun e => (Ok tt, Extension.set_stockInformation (Some si) e)) ;;
          updateStockStatusBar si ;;
          in_ext (Extension.subscribeToStockPrice ticker)
      end
  end.

Variable atob : jsval -> result string.
Variable PricingData_decode_toJSON : list Byte.byte -> result (list (string * jsval)).

(** The extension over time: runs of the command, and the calls and socket
    events of [Extension.call]. *)
Inductive input : Type :=
| ShowStock (typed : option string)
| Event (c : Extension.call).

Definition step (i : input) (s : t) : t :=
  match i with
  | ShowStock typed => snd (showStock typed s)
  | Event c => set_ext (Extension.step atob PricingData_decode_toJSON c (ext s)) s
  end.

Definition run (inputs : list input) (s : t) : t :=
  fold_left (fun s i => step i s) inputs s.

End Activate.

End Command.

(** ** Sample payloads and networks, for the examples *)

Module Sample.

Local Open Scope float_scope.

Definition cookie_reply : response :=
  {| status := 404;
     set_cookie := VArr [VStr "A3=d=AQABBEqh; Max-Age=31557600; Domain=.yahoo.com; Path=/"];
     data := VStr "" |}.

Definition the_cookie : jsval :=
  VStr "A3=d=AQABBEqh; Max-Age=31557600; Domain=.yahoo.com; Path=/".

Definition crumb_reply (body : jsval) : response :=
  {| status := 200; set_cookie := VUndefined; data := body |}.

Definition quote_body (results : jsval) : jsval :=
  VObj [("quoteSummary", VObj [("result", results); ("error", VNull)])].

Definition aapl_quote_result : jsval :=
  VObj [("quoteType", VObj [("quoteType", VStr "EQUITY"); ("symbol", VStr "AAPL");
                            ("longName", VStr "Apple Inc.")]);
        ("summaryDetail", VObj [("currency", VStr "USD"); ("dayHigh", VNum 230.5);
                                ("dayLow", VNum 225);
                                ("regularMarketPreviousClose", VNum 228)])].

Definition chart_body (results : jsval) : jsval :=
  VObj [("chart", VObj [("result", results); ("error", VNull)])].

(** A chart without [regularMarketVolume]. *)
Definition aapl_chart_result : jsval :=
  VObj [("meta", VObj [("fullExchangeName", VStr "NasdaqGS");
                       ("regularMarketPrice", VNum 229.5);
                       ("regularMarketTime", VNum 1700000000)])].

Definition reply (status : Z) (body : jsval) : net_result :=
  NetResponse {| World.status := status; set_cookie := VUndefined; data := body |}.

(** A network on which the bootstrap succeeds with the crumb [crumb_body],
    and the two data endpoints of AAPL answer [quote] and [price]. *)
Definition network (crumb_body : jsval) (quote price : net_result)
  : nat -> request -> net_result :=
  fun _ req =>
    if (url req =? YAHOO_COOKIE_URL)%string then NetResponse cookie_reply
    else if (url req =? YAHOO_CRUMB_URL)%string then NetResponse (crumb_reply crumb_body)
    else if (url req =? YAHOO_QUOTE_URL ++ "AAPL")%string then quote
    else if (url req =? YAHOO_PRICE_URL ++ "AAPL")%string then price
    else NetFail.

(** A network that is down. *)
Definition offline : nat -> request -> net_result := fun _ _ => NetFail.

Definition session (net : nat -> request -> net_result) : YahooFinance.t :=
  {| YahooFinance.cookie := the_cookie;
     YahooFinance.crumb := VStr "mT7xQkP0aZ1";
     YahooFinance.webSocket := None;
     YahooFinance.world := fresh net |}.

Definition guarded_session (net : nat -> request -> net_result) : YahooFinanceGuarded.t :=
  {| YahooFinanceGuarded.cookie := the_cookie;
     YahooFinanceGuarded.crumb := VStr "mT7xQkP0aZ1";
     YahooFinanceGuarded.world := fresh net |}.

(** Stand-ins for the two library functions of the message handler: a
    decoder that yields one given result whatever the message. *)
Definition atob_of (outcome : result string) : jsval -> result string :=
  fun _ => outcome.

Definition decoder_of (outcome : result (list (string * jsval)))
  : list Byte.byte -> result (list (string * jsval)) :=
  fun _ => outcome.

(** The quote of AAPL being tracked: current 100, day high 110. *)
Definition aapl : StockInformation :=
  {| type := VStr "EQUITY";
     symbol := VStr "AAPL";
     name := VStr "Apple Inc.";
     timezone := VStr "America/New_York";
     currency := VStr "USD";
     exchange := VStr "NasdaqGS";
     sector := VStr "Technology";
     price := {| current := VNum 100;
                 day_high := VNum 110;
                 day_low := VNum 95;
                 previous_close := VNum 98;
                 day_volume := VNum 50000000;
                 updated_at := VDateOfSeconds (VNum 1700000000) |} |}.

Definition tracking : Extension.t :=
  {| Extension.stockStatusBar := true;
     Extension.stockInformation := Some aapl;
     Extension.ws := Some 0%nat;
     Extension.world :=
       {| net := offline; sent := 0; trace := [];
          sockets := [{| readyState := OPEN; ticker_of := "AAPL" |}] |} |}.



End Sample.

(** ** Vocabulary of the statements *)

Definition unset (v : jsval) : Prop := v = VNull \/ v = VStr "".

(** [d.<root>.result[0]] where the read succeeds, undefined where it throws. *)
Definition first_result (root : string) (d : jsval) : jsval :=
  match rbind (path d [root; "result"]) index0 with
  | Ok v => v
  | Throw _ => VUndefined
  end.

(** [v.k1.k2...] where the read succeeds, undefined where it throws. *)
Definition field (v : jsval) (ks : list string) : jsval :=
  match path v ks with
  | Ok x => x
  | Throw _ => VUndefined
  end.

(** [P] holds of the value of a computation that returned. *)
Definition forall_ok {A} (r : result A) (P : A -> Prop) : Prop :=
  match r with
  | Ok a => P a
  | Throw _ => False
  end.

(** The number of requests sent to [u], read off the trace. *)
Definition is_get_to (u : string) (e : event) : bool :=
  match e with
  | HttpGet _ req => String.eqb (url req) u
  | _ => false
  end.

Definition gets_to (u : string) (w : env) : nat :=
  length (filter (is_get_to u) (trace w)).

(** The request gets a response whose status [validateStatus] accepts. *)
Definition accepts (validateStatus : Z -> bool) (a : net_result) : bool :=
  match a with
  | NetFail => false
  | NetResponse r => validateStatus (status r)
  end.

(** The sockets an instance created, and the one it refers to: the
    reference names the socket created last, and no other socket is live. *)
Definition quiet (s : socket) : Prop := live (readyState s) = false.

Definition current_only (ws : option nat) (l : list socket) : Prop :=
  match ws with
  | None => l = []
  | Some id => exists pre cur, l = (pre ++ [cur])%list /\ id = length pre /\ Forall quiet pre
  end.

(** What the message handler decodes from a message, given the two library
    functions. *)
Definition decoded (atob : jsval -> result string)
    (PricingData_decode_toJSON : list Byte.byte -> result (list (string * jsval)))
    (data : jsval) : result (list (string * jsval)) :=
  rbind (atob data) (fun b => PricingData_decode_toJSON (list_byte_of_string b)).

(** The module state after one more console entry. *)
Definition logged (l : level) (msg : string) (err : option exn) (s : Extension.t)
  : Extension.t :=
  Extension.set_world (emit (Console l msg err) (Extension.world s)) s.



(** The module state once a quote [si] has been stored and the status bar
    exists. *)
Definition stored (si : StockInformation) (e : Extension.t) : Extension.t :=
  {| Extension.stockStatusBar := true;
     Extension.stockInformation := Some si;
     Extension.ws := Extension.ws e;
     Extension.world := Extension.world e |}.

(** [pattern] occurs somewhere in [text]; [a] occurs in [text]. *)
Fixpoint occurs (pattern text : string) : bool :=
  prefix pattern text
  || match text with
     | EmptyString => false
     | String _ rest => occurs pattern rest
     end.

Fixpoint mentions (a : Ascii.ascii) (text : string) : bool :=
  match text with
  | EmptyString => false
  | String c rest => Ascii.eqb a c || mentions a rest
  end.


(** * Properties *)

(** ** Reading JavaScript values *)

Lemma falsy_unset (v : jsval) : v = VNull \/ v = VStr "" -> truthy v = false.
Proof. intros [-> | ->]; reflexivity. Qed.

Lemma member_throws (v : jsval) (k : string) (e : exn) :
  member v k = Throw e -> e = TypeError.
Proof. destruct v; simpl; congruence. Qed.

Lemma index0_throws (v : jsval) (e : exn) :
  index0 v = Throw e -> e = TypeError.
Proof. destruct v as [ | | | | [ | ] | | | | ]; simpl; congruence. Qed.

Lemma path_throws (ks : list string) :
  forall (v : jsval) (e : exn), path v ks = Throw e -> e = TypeError.
Proof.
  induction ks as [ | k ks IH]; intros v e; simpl.
  - discriminate.
  - destruct (member v k) eqn:Hm; simpl.
    + apply IH.
    + intros H. injection H as <-. eapply member_throws; eassumption.
Qed.

Lemma path_nullish (v : jsval) (k : string) (ks : list string) :
  nullish v = true -> path v (k :: ks) = Throw TypeError.
Proof. destruct v; simpl; congruence. Qed.

(** ** The session check of [getQuote] *)

Lemma getQuote_uninitialized (symbol : string) (s : YahooFinance.t) :
  truthy (YahooFinance.crumb s) = false \/ truthy (YahooFinance.cookie s) = false ->
  YahooFinance.getQuote symbol s = (Throw YahooFinance.not_initialized, s).
Proof.
  intros H. unfold YahooFinance.getQuote.
  destruct H as [-> | ->]; simpl; [ | rewrite orb_true_r]; reflexivity.
Qed.

Lemma getQuote_guarded_uninitialized (symbol : string) (s : YahooFinanceGuarded.t) :
  truthy (YahooFinanceGuarded.crumb s) = false \/ truthy (YahooFinanceGuarded.cookie s) = false ->
  YahooFinanceGuarded.getQuote symbol s = (Throw YahooFinanceGuarded.not_initialized, s).
Proof.
  intros H. unfold YahooFinanceGuarded.getQuote.
  destruct H as [-> | ->]; simpl; [ | rewrite orb_true_r]; reflexivity.
Qed.

(** [initialize] on a new instance, when the cookie endpoint answers with a
    cookie and the crumb endpoint answers [rk]. *)
Lemma initialize_new (w : env) (rc rk : response) :
  net w (sent w) cookie_request = NetResponse rc ->
  status rc = 404%Z ->
  truthy (opt_index0 (set_cookie rc)) = true ->
  net w (S (sent w)) (crumb_request (opt_index0 (set_cookie rc))) = NetResponse rk ->
  default_validateStatus (status rk) = true ->
  exists w',
    YahooFinance.initialize (YahooFinance.new w)
    = (Ok tt, {| YahooFinance.cookie := opt_index0 (set_cookie rc);
                 YahooFinance.crumb := data rk;
                 YahooFinance.webSocket := None;
                 YahooFinance.world := w' |}).
Proof.
  intros Hc Hs Ht Hk Hv.
  unfold YahooFinance.initialize, try_catch, bind, YahooFinance.fetchCookie, bind,
    YahooFinance.get, YahooFinance.in_world, axios_get.
  simpl. rewrite Hc, Hs. simpl.
  unfold or_else. rewrite Ht.
  unfold YahooFinance.fetchCrumb. simpl. rewrite Ht. simpl.
  unfold bind, YahooFinance.get, YahooFinance.in_world, axios_get. simpl.
  rewrite Hk, Hv. simpl. eexists. reflexivity.
Qed.

Lemma initialize_guarded_new (w : env) (rc rk : response) :
  net w (sent w) cookie_request = NetResponse rc ->
  YahooFinanceGuarded.isValidResponse (status rc) = true ->
  truthy (opt_index0 (set_cookie rc)) = true ->
  net w (S (sent w)) (crumb_request (opt_index0 (set_cookie rc))) = NetResponse rk ->
  status rk = 200%Z ->
  exists w',
    YahooFinanceGuarded.initialize (YahooFinanceGuarded.new w)
    = (Ok tt, {| YahooFinanceGuarded.cookie := opt_index0 (set_cookie rc);
                 YahooFinanceGuarded.crumb := data rk;
                 YahooFinanceGuarded.world := w' |}).
Proof.
  intros Hc Hs Ht Hk Hv.
  unfold YahooFinanceGuarded.initialize, try_catch, bind, YahooFinanceGuarded.fetchCookie,
    try_catch, bind, YahooFinanceGuarded.get, YahooFinanceGuarded.in_world, axios_get.
  simpl. rewrite Hc, Hs. simpl.
  unfold YahooFinanceGuarded.extractCookie, or_else. rewrite Ht.
  unfold YahooFinanceGuarded.fetchCrumb. simpl. rewrite Ht. simpl.
  unfold try_catch, bind, YahooFinanceGuarded.get, YahooFinanceGuarded.in_world, axios_get. simpl.
  rewrite Hk. unfold default_validateStatus. rewrite Hv. simpl.
  unfold lift_result, YahooFinanceGuarded.extractCrumb. rewrite Hv. simpl.
  eexists. reflexivity.
Qed.

(** C9. [getQuote] throws the "not initialized" error, and leaves the
    instance and the world as they were, whenever the cookie or the crumb is
    null or the empty string.  This includes an instance whose [initialize]
    completed without error because the crumb endpoint answered with a
    success status and an empty body: every later [getQuote] throws.  Both
    revisions of the class. *)
Theorem getQuote_requires_session (symbol : string) :
  (forall s : YahooFinance.t,
      unset (YahooFinance.cookie s) \/ unset (YahooFinance.crumb s) ->
      YahooFinance.getQuote symbol s = (Throw YahooFinance.not_initialized, s))
  /\ (forall s : YahooFinanceGuarded.t,
      unset (YahooFinanceGuarded.cookie s) \/ unset (YahooFinanceGuarded.crumb s) ->
      YahooFinanceGuarded.getQuote symbol s = (Throw YahooFinanceGuarded.not_initialized, s))
  /\ (forall (w : env) (rc rk : response),
      net w (sent w) cookie_request = NetResponse rc ->
      status rc = 404%Z ->
      truthy (opt_index0 (set_cookie rc)) = true ->
      net w (S (sent w)) (crumb_request (opt_index0 (set_cookie rc))) = NetResponse rk ->
      default_validateStatus (status rk) = true ->
      data rk = VStr "" ->
      exists s',
        YahooFinance.initialize (YahooFinance.new w) = (Ok tt, s')
        /\ forall w',
            YahooFinance.getQuote symbol (YahooFinance.set_world w' s')
            = (Throw YahooFinance.not_initialized, YahooFinance.set_world w' s'))
  /\ (forall (w : env) (rc rk : response),
      net w (sent w) cookie_request = NetResponse rc ->
      YahooFinanceGuarded.isValidResponse (status rc) = true ->
      truthy (opt_index0 (set_cookie rc)) = true ->
      net w (S (sent w)) (crumb_request (opt_index0 (set_cookie rc))) = NetResponse rk ->
      status rk = 200%Z ->
      data rk = VStr "" ->
      exists s',
        YahooFinanceGuarded.initialize (YahooFinanceGuarded.new w) = (Ok tt, s')
        /\ forall w',
            YahooFinanceGuarded.getQuote symbol (YahooFinanceGuarded.set_world w' s')
            = (Throw YahooFinanceGuarded.not_initialized, YahooFinanceGuarded.set_world w' s')).
Proof.
  repeat split.
  - intros s [H | H]; apply getQuote_uninitialized;
      [right | left]; apply falsy_unset; exact H.
  - intros s [H | H]; apply getQuote_guarded_uninitialized;
      [right | left]; apply falsy_unset; exact H.
  - intros w rc rk Hc Hs Ht Hk Hv Hd.
    destruct (initialize_new w rc rk Hc Hs Ht Hk Hv) as [w1 Hi].
    eexists. split; [exact Hi | ].
    intros w'. apply getQuote_uninitialized. left. simpl. rewrite Hd. reflexivity.
  - intros w rc rk Hc Hs Ht Hk Hv Hd.
    destruct (initialize_guarded_new w rc rk Hc Hs Ht Hk Hv) as [w1 Hi].
    eexists. split; [exact Hi | ].
    intros w'. apply getQuote_guarded_uninitialized. left. simpl. rewrite Hd. reflexivity.
Qed.

(** A new instance, and an instance bootstrapped against a crumb endpoint
    that answers 200 with an empty body, both refuse to fetch AAPL. *)
Lemma getQuote_requires_session_witness :
  YahooFinance.getQuote "AAPL" (YahooFinance.new (fresh Sample.offline))
  = (Throw YahooFinance.not_initialized, YahooFinance.new (fresh Sample.offline))
  /\ exists s',
      YahooFinance.initialize
        (YahooFinance.new (fresh (Sample.network (VStr "") NetFail NetFail))) = (Ok tt, s')
      /\ fst (YahooFinance.getQuote "AAPL" s') = Throw YahooFinance.not_initialized.
Proof.
  destruct (getQuote_requires_session "AAPL") as (H1 & _ & H3 & _).
  split.
  - apply H1. left. left. reflexivity.
  - destruct (H3 (fresh (Sample.network (VStr "") NetFail NetFail))
                Sample.cookie_reply (Sample.crumb_reply (VStr "")))
      as (s' & Hi & Hq); try reflexivity.
    exists s'. split; [exact Hi | ].
    specialize (Hq (YahooFinance.world s')).
    assert (E : YahooFinance.set_world (YahooFinance.world s') s' = s')
      by (destruct s'; reflexivity).
    rewrite E in Hq. rewrite Hq. reflexivity.
Defined.

(** ** [getQuote] and the two responses *)

Lemma first_result_throws (root : string) (d : jsval) (e : exn) :
  rbind (path d [root; "result"]) index0 = Throw e -> e = TypeError.
Proof.
  destruct (path d [root; "result"]) eqn:Hp; simpl.
  - apply index0_throws.
  - intros H. injection H as <-. eapply path_throws; eassumption.
Qed.



(** The declared result type of the guarded [parseStockInformation] allows
    null; the function never returns it. *)
Lemma guarded_parse_not_null (rq rp : response) (symbol : string) :
  YahooFinanceGuarded.parseStockInformation rq rp symbol <> Ok None.
Proof.
  unfold YahooFinanceGuarded.parseStockInformation.
  destruct (YahooFinanceGuarded.well_formed rq rp); [ | discriminate].
  repeat match goal with
         | |- context [rbind ?x _] =>
             destruct x; cbn [rbind]; [ | discriminate]
         end.
  discriminate.
Qed.


(** [getQuote] once the two requests have been answered. *)
Lemma getQuote_parses (symbol : string) (s s1 s2 : YahooFinance.t) (rq rp : response) :
  truthy (YahooFinance.crumb s) = true ->
  truthy (YahooFinance.cookie s) = true ->
  YahooFinance.fetchTickerQuote symbol s = (Ok rq, s1) ->
  (status rq =? 404)%Z = false ->
  YahooFinance.fetchTickerPrice symbol s1 = (Ok rp, s2) ->
  YahooFinance.getQuote symbol s
  = (match YahooFinance.parseStockInformation rq rp with
     | Ok si => Ok (Some si)
     | Throw e => Throw e
     end, s2).
Proof.
  intros Hk Hc Hq Hs Hp. unfold YahooFinance.getQuote.
  rewrite Hk, Hc. cbn [negb orb]. unfold bind at 1. rewrite Hq, Hs.
  unfold bind at 1. rewrite Hp. unfold bind, lift_result, ret.
  destruct (YahooFinance.parseStockInformation rq rp); reflexivity.
Qed.

Lemma guarded_getQuote_parses (symbol : string) (s s1 s2 : YahooFinanceGuarded.t)
    (rq rp : response) :
  truthy (YahooFinanceGuarded.crumb s) = true ->
  truthy (YahooFinanceGuarded.cookie s) = true ->
  YahooFinanceGuarded.fetchTickerQuote symbol s = (Ok rq, s1) ->
  (status rq =? 404)%Z = false ->
  YahooFinanceGuarded.fetchTickerPrice symbol s1 = (Ok rp, s2) ->
  YahooFinanceGuarded.getQuote symbol s
  = match YahooFinanceGuarded.parseStockInformation rq rp symbol with
    | Ok o => (Ok o, s2)
    | Throw e =>
        (Throw (Error "Failed to fetch quote"),
         YahooFinanceGuarded.set_world
           (emit (Console Err "Failed to fetch quote" (Some e)) (YahooFinanceGuarded.world s2))
           s2)
    end.
Proof.
  intros Hk Hc Hq Hs Hp. unfold YahooFinanceGuarded.getQuote.
  rewrite Hk, Hc. cbn [negb orb]. unfold try_catch, bind at 1. rewrite Hq, Hs.
  unfold bind at 1. rewrite Hp. unfold lift_result.
  destruct (YahooFinanceGuarded.parseStockInformation rq rp symbol); reflexivity.
Qed.

Lemma chain_throws (a : jsval) (v : jsval) (ks : list string) (d : jsval) (e : exn) :
  (if truthy a then Ok a
   else rbind (path v ks) (fun x => Ok (or_else x d))) = Throw e ->
  e = TypeError.
Proof.
  destruct (truthy a); [discriminate | ].
  destruct (path v ks) eqn:Hp; cbn [rbind]; [discriminate | ].
  intros H. injection H as <-. eapply path_throws; eassumption.
Qed.

Ltac type_error :=
  first [ eapply path_throws; eassumption
        | eapply member_throws; eassumption
        | eapply first_result_throws; eassumption
        | eapply chain_throws; eassumption ].

(** Every exception of the unguarded [parseStockInformation] is a TypeError. *)
Lemma parse_throws (rq rp : response) (e : exn) :
  YahooFinance.parseStockInformation rq rp = Throw e -> e = TypeError.
Proof.
  unfold YahooFinance.parseStockInformation.
  repeat match goal with
         | |- context [rbind ?x _] =>
             let E := fresh "E" in
             destruct x eqn:E; cbn [rbind];
             [ | intros H; injection H as <-; type_error ]
         end.
  discriminate.
Qed.

Lemma parse_no_chart_result (rq rp : response) :
  nullish (first_result "chart" (data rp)) = true ->
  YahooFinance.parseStockInformation rq rp = Throw TypeError.
Proof.
  intros Hn.
  destruct (YahooFinance.parseStockInformation rq rp) as [si | e] eqn:Hp.
  - exfalso. revert Hp. unfold YahooFinance.parseStockInformation.
    unfold first_result in Hn.
    destruct (rbind (path (data rq) ["quoteSummary"; "result"]) index0) as [q | ];
      cbn [rbind]; [ | discriminate].
    destruct (rbind (path (data rp) ["chart"; "result"]) index0) as [c | ];
      cbn [rbind]; [ | discriminate].
    repeat match goal with
           | |- context [rbind (path q ?ks) _] =>
               destruct (path q ks); cbn [rbind]; [ | discriminate]
           | |- context [rbind (if ?b then _ else _) _] =>
               destruct b; cbn [rbind]
           end;
      rewrite (path_nullish c "meta" _ Hn); discriminate.
  - f_equal. eapply parse_throws; eassumption.
Qed.

Lemma guarded_parse_rejects (rq rp : response) (symbol : string) :
  YahooFinanceGuarded.well_formed rq rp = false ->
  YahooFinanceGuarded.parseStockInformation rq rp symbol
  = Throw (Error "Unexpected response format").
Proof.
  intros H. unfold YahooFinanceGuarded.parseStockInformation. rewrite H. reflexivity.
Qed.

Lemma not_well_formed_price (rq rp : response) :
  status rp <> 200%Z -> YahooFinanceGuarded.well_formed rq rp = false.
Proof.
  intros H. unfold YahooFinanceGuarded.well_formed.
  apply Z.eqb_neq in H. rewrite H.
  rewrite andb_false_r. reflexivity.
Qed.

(** C3. When the quote-metadata request is answered with status 404,
    [getQuote] returns null: nothing is thrown, the only thing done after
    the request is the warning, and the price-chart endpoint is not asked,
    so nothing it could answer matters.  Both revisions. *)
Theorem getQuote_not_found (symbol : string) :
  (forall (s s1 : YahooFinance.t) (r : response),
      truthy (YahooFinance.crumb s) = true ->
      truthy (YahooFinance.cookie s) = true ->
      YahooFinance.fetchTickerQuote symbol s = (Ok r, s1) ->
      status r = 404%Z ->
      YahooFinance.getQuote symbol s
      = (Ok None,
         YahooFinance.set_world
           (emit (Console Warn ("Quote not found for ticker symbol: " ++ symbol) None)
                 (YahooFinance.world s1)) s1))
  /\ (forall (s s1 : YahooFinanceGuarded.t) (r : response),
      truthy (YahooFinanceGuarded.crumb s) = true ->
      truthy (YahooFinanceGuarded.cookie s) = true ->
      YahooFinanceGuarded.fetchTickerQuote symbol s = (Ok r, s1) ->
      status r = 404%Z ->
      YahooFinanceGuarded.getQuote symbol s
      = (Ok None,
         YahooFinanceGuarded.set_world
           (emit (Console Warn ("Quote not found for ticker symbol: " ++ symbol) None)
                 (YahooFinanceGuarded.world s1)) s1)).
Proof.
  split.
  - intros s s1 r Hk Hc Hq Hs. unfold YahooFinance.getQuote.
    rewrite Hk, Hc. cbn [negb orb]. unfold bind at 1. rewrite Hq, Hs. reflexivity.
  - intros s s1 r Hk Hc Hq Hs. unfold YahooFinanceGuarded.getQuote.
    rewrite Hk, Hc. cbn [negb orb]. unfold try_catch, bind at 1. rewrite Hq, Hs.
    reflexivity.
Qed.

(** The quote endpoint answers 404 and the chart endpoint a complete chart:
    the result is null and the chart endpoint was never asked (one request
    went out). *)
Lemma getQuote_not_found_witness :
  let net := Sample.network (VStr "mT7xQkP0aZ1")
               (Sample.reply 404 (Sample.quote_body VNull))
               (Sample.reply 200 (Sample.chart_body (VArr [Sample.aapl_chart_result]))) in
  (fst (YahooFinance.getQuote "AAPL" (Sample.session net)) = Ok None
   /\ sent (YahooFinance.world (snd (YahooFinance.getQuote "AAPL" (Sample.session net)))) = 1)
  /\ (fst (YahooFinanceGuarded.getQuote "AAPL" (Sample.guarded_session net)) = Ok None
      /\ sent (YahooFinanceGuarded.world
                 (snd (YahooFinanceGuarded.getQuote "AAPL" (Sample.guarded_session net)))) = 1).
Proof.
  destruct (getQuote_not_found "AAPL") as [H1 H2].
  split.
  - erewrite H1; cycle 1; [ reflexivity .. | split; reflexivity ].
  - erewrite H2; cycle 1; [ reflexivity .. | split; reflexivity ].
Defined.




(** C4, as stated, fails: the quote-metadata request succeeds, the
    price-chart request is answered with status 404, and [getQuote] throws
    instead of returning null. *)
Lemma chart_404_throws :
  let rq := {| status := 200; set_cookie := VUndefined;
               data := Sample.quote_body (VArr [Sample.aapl_quote_result]) |} in
  let rp := {| status := 404; set_cookie := VUndefined;
               data := Sample.chart_body VNull |} in
  let net := Sample.network (VStr "mT7xQkP0aZ1") (NetResponse rq) (NetResponse rp) in
  fst (YahooFinanceGuarded.getQuote "AAPL" (Sample.guarded_session net))
  = Throw (Error "Failed to fetch quote")
  /\ fst (YahooFinance.getQuote "AAPL" (Sample.session net)) = Throw TypeError
  /\ fst (YahooFinanceGuarded.getQuote "AAPL" (Sample.guarded_session net)) <> Ok None
  /\ fst (YahooFinance.getQuote "AAPL" (Sample.session net)) <> Ok None.
Proof.
  cbv zeta. repeat split; try reflexivity; vm_compute; discriminate.
Qed.

(** C4, amended.  When the quote-metadata request is answered with a status
    other than 404 and the price-chart request with status 404, [getQuote]
    does not return null.  The guarded revision rejects the pair with
    "Unexpected response format", which [getQuote] logs and reports as
    "Failed to fetch quote".  The unguarded revision reads the 404 body like
    any other: it never yields null, and it throws a TypeError when the body
    has no first chart result. *)
Theorem getQuote_chart_404 (symbol : string) :
  (forall (s s1 s2 : YahooFinanceGuarded.t) (rq rp : response),
      truthy (YahooFinanceGuarded.crumb s) = true ->
      truthy (YahooFinanceGuarded.cookie s) = true ->
      YahooFinanceGuarded.fetchTickerQuote symbol s = (Ok rq, s1) ->
      (status rq =? 404)%Z = false ->
      YahooFinanceGuarded.fetchTickerPrice symbol s1 = (Ok rp, s2) ->
      status rp = 404%Z ->
      YahooFinanceGuarded.getQuote symbol s
      = (Throw (Error "Failed to fetch quote"),
         YahooFinanceGuarded.set_world
           (emit (Console Err "Failed to fetch quote"
                    (Some (Error "Unexpected response format")))
                 (YahooFinanceGuarded.world s2)) s2))
  /\ (forall (s s1 s2 : YahooFinance.t) (rq rp : response),
      truthy (YahooFinance.crumb s) = true ->
      truthy (YahooFinance.cookie s) = true ->
      YahooFinance.fetchTickerQuote symbol s = (Ok rq, s1) ->
      (status rq =? 404)%Z = false ->
      YahooFinance.fetchTickerPrice symbol s1 = (Ok rp, s2) ->
      status rp = 404%Z ->
      fst (YahooFinance.getQuote symbol s) <> Ok None
      /\ snd (YahooFinance.getQuote symbol s) = s2
      /\ (nullish (first_result "chart" (data rp)) = true ->
          YahooFinance.getQuote symbol s = (Throw TypeError, s2))).
Proof.
  split.
  - intros s s1 s2 rq rp Hk Hc Hq Hs Hp Hr.
    rewrite (guarded_getQuote_parses symbol s s1 s2 rq rp Hk Hc Hq Hs Hp).
    rewrite guarded_parse_rejects; [reflexivity | ].
    apply not_well_formed_price. rewrite Hr. discriminate.
  - intros s s1 s2 rq rp Hk Hc Hq Hs Hp Hr.
    rewrite (getQuote_parses symbol s s1 s2 rq rp Hk Hc Hq Hs Hp).
    repeat split.
    + cbn [fst]. destruct (YahooFinance.parseStockInformation rq rp); discriminate.
    + intros Hn. rewrite (parse_no_chart_result rq rp Hn). reflexivity.
Qed.

(** The quote of AAPL arrives, the chart endpoint answers 404 with a null
    result. *)
Lemma getQuote_chart_404_witness :
  let rq := {| status := 200; set_cookie := VUndefined;
               data := Sample.quote_body (VArr [Sample.aapl_quote_result]) |} in
  let rp := {| status := 404; set_cookie := VUndefined;
               data := Sample.chart_body VNull |} in
  let net := Sample.network (VStr "mT7xQkP0aZ1") (NetResponse rq) (NetResponse rp) in
  fst (YahooFinanceGuarded.getQuote "AAPL" (Sample.guarded_session net))
  = Throw (Error "Failed to fetch quote")
  /\ fst (YahooFinance.getQuote "AAPL" (Sample.session net)) = Throw TypeError.
Proof.
  intros rq rp net. destruct (getQuote_chart_404 "AAPL") as [H1 H2].
  split.
  - erewrite H1; cycle 1; [ reflexivity .. | reflexivity ].
  - edestruct (H2 (Sample.session net)) as (_ & _ & H3); [ reflexivity .. | ].
    rewrite H3; reflexivity.
Defined.

(** ** The fields of a parsed quote *)

Lemma chain_value (a v d r : jsval) (ks : list string) :
  (if truthy a then Ok a
   else rbind (path v ks) (fun x => Ok (or_else x d))) = Ok r ->
  r = (if truthy a then a
       else if truthy (field v ks) then field v ks else d).
Proof.
  unfold field, or_else. destruct (truthy a).
  - congruence.
  - destruct (path v ks); cbn [rbind]; congruence.
Qed.

Lemma sector_value (q ap : jsval) :
  member q "assetProfile" = Ok ap ->
  or_else (opt_member ap "sector") VNull
  = (if truthy (field q ["assetProfile"; "sector"])
     then field q ["assetProfile"; "sector"] else VNull).
Proof.
  intros H. unfold field, or_else, opt_member. cbn [path]. rewrite H. cbn [rbind].
  destruct (member ap "sector"); reflexivity.
Qed.

Lemma field_of_path (v x : jsval) (ks : list string) :
  path v ks = Ok x -> field v ks = x.
Proof. unfold field. intros ->. reflexivity. Qed.

Ltac read_chain :=
  match goal with
  | H : _ = Ok ?r |- ?r = _ => exact (chain_value _ _ _ _ _ H)
  end.

(** C7, as stated, fails on the volume: a chart without
    [regularMarketVolume] gives [day_volume] the number 0, not null. *)
Lemma absent_volume_is_zero :
  let rq := {| status := 200; set_cookie := VUndefined;
               data := Sample.quote_body (VArr [Sample.aapl_quote_result]) |} in
  let rp := {| status := 200; set_cookie := VUndefined;
               data := Sample.chart_body (VArr [Sample.aapl_chart_result]) |} in
  exists si : StockInformation,
    YahooFinance.parseStockInformation rq rp = Ok si
    /\ day_volume (price si) = VNum 0
    /\ day_volume (price si) <> VNull.
Proof.
  cbv zeta. eexists. split; [reflexivity | ]. split; [reflexivity | discriminate].
Qed.

(** C7, amended.  On a successful parse: [name] is [longName], else
    [shortName], else the empty string; [exchange] is the chart's
    [fullExchangeName], else its [exchangeName], else null; [sector] is the
    profile's sector, else null; "else" meaning that the value before is
    falsy.  In src/src/YahooFinance.ts, [day_volume] is the chart's
    [regularMarketVolume], else the number 0.  The guarded revision follows
    the same three chains and extracts no volume: its record has no
    [day_volume]. *)
Theorem parseStockInformation_fields (rq rp : response) :
  let q := first_result "quoteSummary" (data rq) in
  let p := first_result "chart" (data rp) in
  let longName := field q ["quoteType"; "longName"] in
  let shortName := field q ["quoteType"; "shortName"] in
  let fullExchangeName := field p ["meta"; "fullExchangeName"] in
  let exchangeName := field p ["meta"; "exchangeName"] in
  let profileSector := field q ["assetProfile"; "sector"] in
  let volume := field p ["meta"; "regularMarketVolume"] in
  (forall si : StockInformation,
      YahooFinance.parseStockInformation rq rp = Ok si ->
      name si = (if truthy longName then longName
                 else if truthy shortName then shortName else VStr "")
      /\ exchange si = (if truthy fullExchangeName then fullExchangeName
                        else if truthy exchangeName then exchangeName else VNull)
      /\ sector si = (if truthy profileSector then profileSector else VNull)
      /\ day_volume (price si) = (if truthy volume then volume else VNum 0))
  /\ (forall (symbol : string) (si : StockInformation),
      YahooFinanceGuarded.parseStockInformation rq rp symbol = Ok (Some si) ->
      name si = (if truthy longName then longName
                 else if truthy shortName then shortName else VStr "")
      /\ exchange si = (if truthy fullExchangeName then fullExchangeName
                        else if truthy exchangeName then exchangeName else VNull)
      /\ sector si = (if truthy profileSector then profileSector else VNull)
      /\ day_volume (price si) = VUndefined).
Proof.
  cbv zeta. unfold first_result. split.
  - intros si. unfold YahooFinance.parseStockInformation.
    repeat match goal with
           | |- context [rbind ?x _] =>
               let E := fresh "E" in
               destruct x eqn:E; cbn [rbind]; [ | discriminate]
           end.
    intros H. injection H as <-. cbn [name exchange sector price day_volume].
    repeat match goal with
           | H : path _ _ = Ok ?x |- _ => apply field_of_path in H; subst x
           end.
    repeat apply conj; try read_chain.
    + apply sector_value. assumption.
    + reflexivity.
  - intros symbol si. unfold YahooFinanceGuarded.parseStockInformation.
    destruct (YahooFinanceGuarded.well_formed rq rp); [ | discriminate].
    repeat match goal with
           | |- context [rbind ?x _] =>
               let E := fresh "E" in
               destruct x eqn:E; cbn [rbind]; [ | discriminate]
           end.
    intros H. injection H as <-. cbn [name exchange sector price day_volume].
    repeat match goal with
           | H : path _ _ = Ok ?x |- _ => apply field_of_path in H; subst x
           end.
    repeat apply conj; try read_chain.
    + apply sector_value. assumption.
    + reflexivity.
Qed.

(** The quote and chart of AAPL, the chart without a volume. *)
Lemma parseStockInformation_fields_witness :
  let rq := {| status := 200; set_cookie := VUndefined;
               data := Sample.quote_body (VArr [Sample.aapl_quote_result]) |} in
  let rp := {| status := 200; set_cookie := VUndefined;
               data := Sample.chart_body (VArr [Sample.aapl_chart_result]) |} in
  forall_ok (YahooFinance.parseStockInformation rq rp)
    (fun si => name si = VStr "Apple Inc."
               /\ exchange si = VStr "NasdaqGS"
               /\ sector si = VNull
               /\ day_volume (price si) = VNum 0).
Proof.
  intros rq rp.
  destruct (parseStockInformation_fields rq rp) as [H _].
  exact (H _ eq_refl).
Defined.

(** ** The retry loop of [request] *)

Lemma gets_to_get (u : string) (w : env) (n : nat) (req : request) :
  gets_to u {| net := net w; sent := n; trace := HttpGet (sent w) req :: trace w;
               sockets := sockets w |}
  = (if String.eqb (url req) u then 1 else 0) + gets_to u w.
Proof.
  unfold gets_to. cbn [trace filter is_get_to].
  destruct (String.eqb (url req) u); reflexivity.
Qed.

Lemma gets_to_console (u : string) (w : env) (l : level) (msg : string) (err : option exn) :
  gets_to u (emit (Console l msg err) w) = gets_to u w.
Proof. reflexivity. Qed.

Lemma get_effect (req : request) (validate : Z -> bool) (s : YahooFinance.t) :
  exists s',
    YahooFinance.get req validate s
    = (match net (YahooFinance.world s) (sent (YahooFinance.world s)) req with
       | NetFail => Throw AxiosError
       | NetResponse r => if validate (status r) then Ok r else Throw AxiosError
       end, s')
    /\ YahooFinance.cookie s' = YahooFinance.cookie s
    /\ YahooFinance.crumb s' = YahooFinance.crumb s
    /\ YahooFinance.webSocket s' = YahooFinance.webSocket s
    /\ net (YahooFinance.world s') = net (YahooFinance.world s)
    /\ sent (YahooFinance.world s') = S (sent (YahooFinance.world s))
    /\ sockets (YahooFinance.world s') = sockets (YahooFinance.world s)
    /\ forall u, gets_to u (YahooFinance.world s')
                 = (if String.eqb (url req) u then 1 else 0) + gets_to u (YahooFinance.world s).
Proof.
  unfold YahooFinance.get, YahooFinance.in_world, axios_get.
  destruct (net (YahooFinance.world s) (sent (YahooFinance.world s)) req) as [ | r];
    [ | destruct (validate (status r))];
    (eexists; split; [reflexivity | ]);
    cbn [YahooFinance.set_world YahooFinance.cookie YahooFinance.crumb YahooFinance.webSocket
           YahooFinance.world net sent sockets];
    repeat split; intros u; apply gets_to_get.
Qed.

Ltac fold_gets :=
  repeat match goal with
         | |- context [length (filter (is_get_to ?u) (trace ?w))] =>
             change (length (filter (is_get_to u) (trace w))) with (gets_to u w)
         end.

(** What [initialize] leaves alone: the network, the sockets, and the
    number of requests sent anywhere but to the two bootstrap endpoints. *)
Lemma initialize_frame (s : YahooFinance.t) :
  let s' := snd (YahooFinance.initialize s) in
  net (YahooFinance.world s') = net (YahooFinance.world s)
  /\ sockets (YahooFinance.world s') = sockets (YahooFinance.world s)
  /\ YahooFinance.webSocket s' = YahooFinance.webSocket s
  /\ forall u, u <> YAHOO_COOKIE_URL -> u <> YAHOO_CRUMB_URL ->
               gets_to u (YahooFinance.world s') = gets_to u (YahooFinance.world s).
Proof.
  assert (Hne : forall a u : string, u <> a -> String.eqb a u = false).
  { intros a u H. apply String.eqb_neq. congruence. }
  cbv zeta.
  unfold YahooFinance.initialize, try_catch, bind, YahooFinance.fetchCookie, bind.
  destruct (get_effect cookie_request (fun status => (status =? 404)%Z) s)
    as (s1 & E1 & Hc1 & Hk1 & Hw1 & Hn1 & Hs1 & Hso1 & Hg1).
  rewrite E1.
  destruct (net (YahooFinance.world s) (sent (YahooFinance.world s)) cookie_request)
    as [ | rc]; [ | destruct (status rc =? 404)%Z ].
  - cbn. repeat split; auto. intros u H1 H2. fold_gets.
    rewrite Hg1. cbn [url cookie_request]. rewrite (Hne _ _ H1). reflexivity.
  - unfold ret. unfold YahooFinance.fetchCrumb.
    cbn [YahooFinance.set_cookie_field YahooFinance.cookie].
    destruct (truthy (or_else (opt_index0 (set_cookie rc)) (VStr ""))).
    + cbn [negb]. unfold bind.
      match goal with
      | |- context [YahooFinance.get ?r ?v ?st] =>
          destruct (get_effect r v st)
          as (s2 & E2 & Hc2 & Hk2 & Hw2 & Hn2 & Hs2 & Hso2 & Hg2)
      end.
      rewrite E2.
      cbn [YahooFinance.set_cookie_field YahooFinance.world YahooFinance.webSocket]
        in Hw2, Hn2, Hso2, Hg2.
      match goal with
      | |- context [match ?x with NetFail => _ | NetResponse _ => _ end] =>
          destruct x as [ | rk]; [ | destruct (default_validateStatus (status rk)) ]
      end; cbn; repeat split; try congruence; intros u H1 H2; fold_gets;
        rewrite Hg2, Hg1; cbn [url cookie_request crumb_request];
        rewrite (Hne _ _ H1), (Hne _ _ H2); reflexivity.
    + cbn. repeat split; auto. intros u H1 H2. fold_gets.
      rewrite Hg1. cbn [url cookie_request]. rewrite (Hne _ _ H1). reflexivity.
  - cbn. repeat split; auto. intros u H1 H2. fold_gets.
    rewrite Hg1. cbn [url cookie_request]. rewrite (Hne _ _ H1). reflexivity.
Qed.



(** One iteration of the loop whose request is refused. *)
Lemma request_loop_retry (u : string) (p : list (string * jsval)) (a n : nat)
    (s : YahooFinance.t) :
  accepts YahooFinance.validateStatus
          (net (YahooFinance.world s) (sent (YahooFinance.world s))
               (YahooFinance.data_request u p s)) = false ->
  exists s1,
    YahooFinance.request_loop u p a (S n) s
    = (let (r, s2) := YahooFinance.initialize s1 in
       match r with
       | Ok _ => YahooFinance.request_loop u p (S a) n s2
       | Throw e => (Throw e, s2)
       end)
    /\ net (YahooFinance.world s1) = net (YahooFinance.world s)
    /\ sent (YahooFinance.world s1) = S (sent (YahooFinance.world s))
    /\ sockets (YahooFinance.world s1) = sockets (YahooFinance.world s)
    /\ YahooFinance.webSocket s1 = YahooFinance.webSocket s
    /\ forall v, gets_to v (YahooFinance.world s1)
                 = (if String.eqb u v then 1 else 0) + gets_to v (YahooFinance.world s).
Proof.
  intros H. cbn [YahooFinance.request_loop]. unfold try_catch.
  destruct (get_effect (YahooFinance.data_request u p s) YahooFinance.validateStatus s)
    as (s1 & E1 & _ & _ & Hw1 & Hn1 & Hs1 & Hso1 & Hg1).
  rewrite E1.
  assert (Hthrow :
            match net (YahooFinance.world s) (sent (YahooFinance.world s))
                      (YahooFinance.data_request u p s) with
            | NetFail => Throw AxiosError
            | NetResponse r =>
                if YahooFinance.validateStatus (status r) then Ok r else Throw AxiosError
            end = Throw AxiosError).
  { destruct (net (YahooFinance.world s) (sent (YahooFinance.world s))
                  (YahooFinance.data_request u p s)) as [ | r]; cbn [accepts] in H;
      [reflexivity | rewrite H; reflexivity]. }
  rewrite Hthrow. unfold bind at 1. unfold YahooFinance.console at 1.
  eexists. split; [ unfold bind; reflexivity | ].
  cbn [YahooFinance.set_world YahooFinance.world YahooFinance.webSocket emit net sent sockets].
  repeat split; assumption.
Qed.

(** The loop sends at most [remaining] requests to its endpoint, and leaves
    the network and the sockets as they were. *)
Lemma request_loop_bound (u : string) (p : list (string * jsval)) :
  u <> YAHOO_COOKIE_URL -> u <> YAHOO_CRUMB_URL ->
  forall (remaining a : nat) (s : YahooFinance.t),
    let s' := snd (YahooFinance.request_loop u p a remaining s) in
    gets_to u (YahooFinance.world s') <= gets_to u (YahooFinance.world s) + remaining
    /\ net (YahooFinance.world s') = net (YahooFinance.world s)
    /\ sockets (YahooFinance.world s') = sockets (YahooFinance.world s)
    /\ YahooFinance.webSocket s' = YahooFinance.webSocket s.
Proof.
  intros Hu1 Hu2. induction remaining as [ | n IH]; intros a s; cbv zeta.
  - cbn. repeat split. lia.
  - destruct (accepts YahooFinance.validateStatus
                (net (YahooFinance.world s) (sent (YahooFinance.world s))
                     (YahooFinance.data_request u p s))) eqn:Ha.
    + cbn [YahooFinance.request_loop]. unfold try_catch.
      destruct (get_effect (YahooFinance.data_request u p s) YahooFinance.validateStatus s)
        as (s1 & E1 & _ & _ & Hw1 & Hn1 & Hs1 & Hso1 & Hg1).
      rewrite E1.
      destruct (net (YahooFinance.world s) (sent (YahooFinance.world s))
                    (YahooFinance.data_request u p s)) as [ | r]; cbn [accepts] in Ha;
        [discriminate | ].
      rewrite Ha. cbn [snd]. repeat split; try assumption.
      rewrite Hg1. destruct (String.eqb _ u); lia.
    + destruct (request_loop_retry u p a n s Ha) as (s1 & E & Hn1 & Hs1 & Hso1 & Hw1 & Hg1).
      rewrite E.
      pose proof (initialize_frame s1) as (Fn & Fso & Fw & Fg). cbv zeta in Fn, Fso, Fw, Fg.
      specialize (Fg u Hu1 Hu2).
      destruct (YahooFinance.initialize s1) as [[ [] | e] s2]; cbn [snd] in *.
      * specialize (IH (S a) s2). cbv zeta in IH.
        destruct IH as (Ib & In & Iso & Iw).
        repeat split; try congruence.
        rewrite Fg, Hg1, String.eqb_refl in Ib. lia.
      * repeat split; try congruence.
        rewrite Fg, Hg1, String.eqb_refl. lia.
Qed.

(** A response whose status is accepted ends the loop at once. *)
Lemma request_loop_returns (u : string) (p : list (string * jsval)) (a n : nat)
    (s : YahooFinance.t) (r : response) :
  net (YahooFinance.world s) (sent (YahooFinance.world s)) (YahooFinance.data_request u p s)
  = NetResponse r ->
  YahooFinance.validateStatus (status r) = true ->
  exists s',
    YahooFinance.request_loop u p a (S n) s = (Ok r, s')
    /\ sent (YahooFinance.world s') = S (sent (YahooFinance.world s))
    /\ YahooFinance.cookie s' = YahooFinance.cookie s
    /\ YahooFinance.crumb s' = YahooFinance.crumb s.
Proof.
  intros Hr Hv. cbn [YahooFinance.request_loop]. unfold try_catch.
  destruct (get_effect (YahooFinance.data_request u p s) YahooFinance.validateStatus s)
    as (s1 & E1 & Hc1 & Hk1 & _ & _ & Hs1 & _ & _).
  rewrite E1, Hr, Hv. exists s1. repeat split; assumption.
Qed.






(** ** One live connection *)

Lemma update_socket_length (i : nat) (f : socket -> socket) (l : list socket) :
  length (update_socket i f l) = length l.
Proof.
  revert i. induction l as [ | x l IH]; intros [ | i]; cbn [update_socket length];
    try reflexivity.
  rewrite IH. reflexivity.
Qed.

Lemma update_socket_last (f : socket -> socket) (pre : list socket) (cur : socket) :
  update_socket (length pre) f (pre ++ [cur]) = (pre ++ [f cur])%list.
Proof.
  induction pre as [ | x pre IH]; cbn [update_socket length app].
  - reflexivity.
  - rewrite IH. reflexivity.
Qed.

Lemma update_socket_quiet (f : socket -> socket) :
  (forall s, quiet s -> quiet (f s)) ->
  forall (i : nat) (l : list socket), Forall quiet l -> Forall quiet (update_socket i f l).
Proof.
  intros Hf i l. revert i.
  induction l as [ | x l IH]; intros i H; [destruct i; constructor | ].
  inversion H as [ | ? ? Hx Hl]; subst.
  destruct i as [ | i]; cbn [update_socket]; constructor; auto.
Qed.

Lemma update_socket_app (f : socket -> socket) (pre : list socket) (cur : socket) :
  (forall s, quiet s -> quiet (f s)) ->
  Forall quiet pre ->
  forall i : nat,
  exists pre' cur',
    update_socket i f (pre ++ [cur]) = (pre' ++ [cur'])%list
    /\ length pre' = length pre
    /\ Forall quiet pre'.
Proof.
  intros Hf. induction pre as [ | x pre IH]; intros H i.
  - destruct i as [ | i]; cbn [update_socket app].
    + exists [], (f cur). repeat split. constructor.
    + exists [], cur. repeat split; [destruct i; reflexivity | constructor].
  - inversion H as [ | ? ? Hx Hl]; subst.
    destruct i as [ | i]; cbn [update_socket app].
    + exists (f x :: pre), cur. repeat split. constructor; auto.
    + destruct (IH Hl i) as (pre' & cur' & E & Hlen & Hq).
      exists (x :: pre'), cur'. rewrite E. cbn [app length]. repeat split; auto.
Qed.

Lemma quiet_close (s : socket) : quiet (close_socket s).
Proof.
  unfold quiet, close_socket. destruct (live (readyState s)) eqn:E; [reflexivity | exact E].
Qed.

Lemma quiet_open (s : socket) : quiet s -> quiet (open_socket s).
Proof.
  unfold quiet, open_socket. destruct (readyState s) eqn:E; cbn; rewrite ?E; cbn; congruence.
Qed.

Lemma quiet_end (s : socket) : quiet (end_socket s).
Proof. reflexivity. Qed.

Lemma filter_quiet (l : list socket) :
  Forall quiet l -> filter (fun s => live (readyState s)) l = [].
Proof.
  induction 1 as [ | x l Hx _ IH]; cbn [filter]; [reflexivity | ].
  unfold quiet in Hx. rewrite Hx. exact IH.
Qed.

Lemma current_only_live (ws : option nat) (l : list socket) :
  current_only ws l -> length (filter (fun s => live (readyState s)) l) <= 1.
Proof.
  destruct ws as [id | ]; cbn [current_only].
  - intros (pre & cur & -> & _ & Hq).
    rewrite filter_app, (filter_quiet pre Hq). cbn [app filter].
    destruct (live (readyState cur)); cbn [length]; lia.
  - intros ->. cbn. lia.
Qed.

(** Replacing the socket: the one referred to is closed, a new one is
    appended and referred to. *)
Lemma current_only_replace (ws : option nat) (l : list socket) (new : socket) :
  current_only ws l ->
  current_only (Some (length (match ws with
                              | Some old => update_socket old close_socket l
                              | None => l
                              end)))
               ((match ws with
                 | Some old => update_socket old close_socket l
                 | None => l
                 end) ++ [new]).
Proof.
  destruct ws as [id | ]; cbn [current_only].
  - intros (pre & cur & -> & -> & Hq).
    rewrite update_socket_last.
    exists (pre ++ [close_socket cur])%list, new. repeat split.
    apply Forall_app. split; [exact Hq | ]. constructor; [apply quiet_close | constructor].
  - intros ->. exists [], new. repeat split. constructor.
Qed.

(** Any change of one socket that keeps quiet sockets quiet. *)
Lemma current_only_update (ws : option nat) (l : list socket) (i : nat)
    (f : socket -> socket) :
  (forall s, quiet s -> quiet (f s)) ->
  current_only ws l -> current_only ws (update_socket i f l).
Proof.
  intros Hf. destruct ws as [id | ]; cbn [current_only].
  - intros (pre & cur & -> & -> & Hq).
    destruct (update_socket_app f pre cur Hf Hq i) as (pre' & cur' & E & Hlen & Hq').
    exists pre', cur'. repeat split; auto.
  - intros ->. destruct i; reflexivity.
Qed.

Lemma data_urls_not_bootstrap (symbol : string) :
  (YAHOO_QUOTE_URL ++ symbol <> YAHOO_COOKIE_URL /\ YAHOO_QUOTE_URL ++ symbol <> YAHOO_CRUMB_URL)
  /\ (YAHOO_PRICE_URL ++ symbol <> YAHOO_COOKIE_URL
      /\ YAHOO_PRICE_URL ++ symbol <> YAHOO_CRUMB_URL).
Proof. repeat split; intros H; cbn in H; discriminate H. Qed.

Lemma getQuote_frame (symbol : string) (s : YahooFinance.t) :
  let s' := snd (YahooFinance.getQuote symbol s) in
  sockets (YahooFinance.world s') = sockets (YahooFinance.world s)
  /\ YahooFinance.webSocket s' = YahooFinance.webSocket s.
Proof.
  cbv zeta. destruct (YahooFinance.getQuote symbol s) as [r s'] eqn:E.
  cbn [snd]. revert E. unfold YahooFinance.getQuote.
  destruct (negb (truthy (YahooFinance.crumb s)) || negb (truthy (YahooFinance.cookie s)));
    [intros E; injection E as _ <-; split; reflexivity | ].
  destruct (data_urls_not_bootstrap symbol) as [[Q1 Q2] [P1 P2]].
  unfold bind at 1. unfold YahooFinance.fetchTickerQuote, YahooFinance.request.
  match goal with
  | |- context [YahooFinance.request_loop ?u ?p ?a ?n s] =>
      pose proof (request_loop_bound u p Q1 Q2 n a s) as (_ & _ & Fs & Fw);
      cbv zeta in Fs, Fw;
      destruct (YahooFinance.request_loop u p a n s) as [[rq | e] s1]
  end; cbn [snd] in *; [ | intros E; injection E as _ <-; split; assumption].
  destruct (status rq =? 404)%Z.
  - cbn. intros E; injection E as _ <-. cbn. split; assumption.
  - unfold bind at 1. unfold YahooFinance.fetchTickerPrice, YahooFinance.request.
    match goal with
    | |- context [YahooFinance.request_loop ?u ?p ?a ?n s1] =>
        pose proof (request_loop_bound u p P1 P2 n a s1) as (_ & _ & Gs & Gw);
        cbv zeta in Gs, Gw;
        destruct (YahooFinance.request_loop u p a n s1) as [[rp | e] s2]
    end; cbn [snd] in *; [ | intros E; injection E as _ <-; split; congruence].
    unfold bind, lift_result, ret.
    destruct (YahooFinance.parseStockInformation rq rp);
      intros E; injection E as _ <-; split; congruence.
Qed.

Lemma step_current_only (c : YahooFinance.call) (s : YahooFinance.t) :
  current_only (YahooFinance.webSocket s) (sockets (YahooFinance.world s)) ->
  current_only (YahooFinance.webSocket (YahooFinance.step c s))
               (sockets (YahooFinance.world (YahooFinance.step c s))).
Proof.
  intros H. destruct c as [ | symbol | ticker | | id | id | id]; cbn [YahooFinance.step].
  - destruct (initialize_frame s) as (_ & Fs & Fw & _). cbv zeta in Fs, Fw.
    rewrite Fs, Fw. exact H.
  - destruct (getQuote_frame symbol s) as (Fs & Fw). cbv zeta in Fs, Fw.
    rewrite Fs, Fw. exact H.
  - unfold YahooFinance.subscribeToStockPrice.
    apply (current_only_replace _ _ {| readyState := CONNECTING; ticker_of := ticker |}) in H.
    destruct (YahooFinance.webSocket s); exact H.
  - unfold YahooFinance.dispose.
    destruct (YahooFinance.webSocket s) as [id | ] eqn:E; cbn; rewrite E; [ | exact H].
    apply current_only_update; [intros; apply quiet_close | exact H].
  - destruct (nth_error (sockets (YahooFinance.world s)) id) as [sk | ]; [ | exact H].
    destruct (is_connecting sk); [ | exact H].
    unfold YahooFinance.onopen. cbn [YahooFinance.set_world YahooFinance.webSocket].
    destruct (YahooFinance.webSocket s) eqn:E; cbn; rewrite E;
      apply (current_only_update _ _ id open_socket quiet_open H).
  - destruct (nth_error (sockets (YahooFinance.world s)) id) as [sk | ]; [ | exact H].
    destruct (is_closed sk); [exact H | ]. cbn.
    apply current_only_update; [intros; apply quiet_end | exact H].
  - destruct (nth_error (sockets (YahooFinance.world s)) id) as [sk | ]; exact H.
Qed.

Lemma run_current_only (cs : list YahooFinance.call) :
  forall s : YahooFinance.t,
    current_only (YahooFinance.webSocket s) (sockets (YahooFinance.world s)) ->
    current_only (YahooFinance.webSocket (YahooFinance.run cs s))
                 (sockets (YahooFinance.world (YahooFinance.run cs s))).
Proof.
  induction cs as [ | c cs IH]; intros s H; [exact H | ].
  cbn [YahooFinance.run fold_left]. apply IH. apply step_current_only. exact H.
Qed.

(** ** The message handler *)

Section HandlerProperties.

Variable atob : jsval -> result string.
Variable PricingData_decode_toJSON : list Byte.byte -> result (list (string * jsval)).


(** The handler, case by case.  It never throws. *)
Lemma on_message_cases (ticker : string) (data : jsval) (s : Extension.t) :
  Extension.on_message atob PricingData_decode_toJSON ticker data s
  = (Ok tt,
     match decoded atob PricingData_decode_toJSON data with
     | Throw e => logged Err "Failed to process WebSocket message:" (Some e) s
     | Ok content =>
         match Extension.stockInformation s with
         | None => logged Err "Stock information is not available" None s
         | Some si =>
             if Extension.stockStatusBar s && strict_eq_string (assoc "id" content) ticker
             then
               let si' := Extension.merge content si in
               let s1 := Extension.set_stockInformation (Some si') s in
               if StockStatusBar.renders si' then
                 Extension.set_world
                   (emit BlinkIndicator (emit (SetStockPrice si') (Extension.world s))) s1
               else logged Err "Failed to process WebSocket message:" (Some TypeError) s1
             else s
         end
     end).
Proof.
  unfold Extension.on_message, decoded, try_catch, bind, lift_result.
  destruct (atob data) as [b | e]; cbn [rbind]; [ | reflexivity].
  destruct (PricingData_decode_toJSON (list_byte_of_string b)) as [content | e];
    [ | reflexivity].
  destruct (Extension.stockInformation s) as [si | ] eqn:Hsi; [ | reflexivity].
  destruct (Extension.stockStatusBar s && strict_eq_string (assoc "id" content) ticker);
    [ | reflexivity].
  cbv zeta. unfold Extension.in_world, StockStatusBar.setStockPrice.
  cbn [Extension.world Extension.set_stockInformation].
  destruct (StockStatusBar.renders (Extension.merge content si)); reflexivity.
Qed.

Lemma on_message_frame (ticker : string) (data : jsval) (s : Extension.t) :
  let s' := snd (Extension.on_message atob PricingData_decode_toJSON ticker data s) in
  Extension.ws s' = Extension.ws s
  /\ sockets (Extension.world s') = sockets (Extension.world s)
  /\ Extension.stockStatusBar s' = Extension.stockStatusBar s.
Proof.
  cbv zeta. rewrite on_message_cases. cbn [snd].
  destruct (decoded atob PricingData_decode_toJSON data) as [content | e]; [ | repeat split].
  destruct (Extension.stockInformation s) as [si | ]; [ | repeat split].
  destruct (Extension.stockStatusBar s && strict_eq_string (assoc "id" content) ticker);
    [ | repeat split].
  cbv zeta. destruct (StockStatusBar.renders (Extension.merge content si)); repeat split.
Qed.

(** C6. A message that [atob] rejects, or whose bytes the decoder rejects,
    makes the handler log the error, and that is all: the handler returns
    normally, the quote record is the one it was, the [ws] reference and
    every socket are as they were, and nothing is added to the trace but the
    console entry (no close, no status-bar update). *)
Theorem malformed_message_is_dropped (ticker : string) (data : jsval) (s : Extension.t)
    (e : exn) :
  atob data = Throw e
  \/ (exists b, atob data = Ok b
                /\ PricingData_decode_toJSON (list_byte_of_string b) = Throw e) ->
  let s' := snd (Extension.on_message atob PricingData_decode_toJSON ticker data s) in
  fst (Extension.on_message atob PricingData_decode_toJSON ticker data s) = Ok tt
  /\ Extension.stockInformation s' = Extension.stockInformation s
  /\ Extension.ws s' = Extension.ws s
  /\ sockets (Extension.world s') = sockets (Extension.world s)
  /\ trace (Extension.world s')
     = Console Err "Failed to process WebSocket message:" (Some e)
         :: trace (Extension.world s).
Proof.
  intros H. cbv zeta. rewrite on_message_cases. cbn [fst snd].
  assert (Hd : decoded atob PricingData_decode_toJSON data = Throw e).
  { unfold decoded. destruct H as [-> | (b & -> & Hb)]; [reflexivity | exact Hb]. }
  rewrite Hd. repeat split.
Qed.

(** C10. Handling a message leaves [type], [symbol], [name], [timezone],
    [currency], [exchange] and [sector] of the quote record as they were
    (and [previous_close] too): only [current], [day_high], [day_low],
    [day_volume] and [updated_at] can change.  Without a record there is
    still none afterwards, and a frame whose [id] is not the ticker of the
    subscription leaves the whole record as it was. *)
Theorem message_changes_price_fields_only (ticker : string) (data : jsval)
    (s : Extension.t) :
  let s' := snd (Extension.on_message atob PricingData_decode_toJSON ticker data s) in
  (forall si, Extension.stockInformation s = Some si ->
     exists si',
       Extension.stockInformation s' = Some si'
       /\ type si' = type si
       /\ symbol si' = symbol si
       /\ name si' = name si
       /\ timezone si' = timezone si
       /\ currency si' = currency si
       /\ exchange si' = exchange si
       /\ sector si' = sector si
       /\ previous_close (price si') = previous_close (price si))
  /\ (Extension.stockInformation s = None -> Extension.stockInformation s' = None)
  /\ (forall content,
        decoded atob PricingData_decode_toJSON data = Ok content ->
        strict_eq_string (assoc "id" content) ticker = false ->
        Extension.stockInformation s' = Extension.stockInformation s).
Proof.
  cbv zeta. rewrite on_message_cases. cbn [snd]. repeat apply conj.
  - intros si Hsi. rewrite Hsi.
    destruct (decoded atob PricingData_decode_toJSON data) as [content | e]; [ | exists si; repeat split; exact Hsi].
    destruct (Extension.stockStatusBar s && strict_eq_string (assoc "id" content) ticker);
      [ | exists si; repeat split; exact Hsi].
    cbv zeta. exists (Extension.merge content si).
    destruct (StockStatusBar.renders (Extension.merge content si)); repeat split.
  - intros Hsi. rewrite Hsi. destruct (decoded atob PricingData_decode_toJSON data); exact Hsi.
  - intros content Hd Hid. rewrite Hd, Hid, andb_false_r.
    destruct (Extension.stockInformation s) eqn:E; exact E.
Qed.

End HandlerProperties.

Lemma malformed_message_is_dropped_witness :
  let rejected := LibraryError "InvalidCharacterError" in
  let s' := snd (Extension.on_message (Sample.atob_of (Throw rejected))
                   (Sample.decoder_of (Ok [])) "AAPL" (VStr "@@@@") Sample.tracking) in
  Extension.stockInformation s' = Some Sample.aapl
  /\ Extension.ws s' = Some 0
  /\ sockets (Extension.world s') = [{| readyState := OPEN; ticker_of := "AAPL" |}]
  /\ trace (Extension.world s')
     = [Console Err "Failed to process WebSocket message:" (Some rejected)].
Proof.
  intros rejected s'.
  destruct (malformed_message_is_dropped
              (Sample.atob_of (Throw rejected)) (Sample.decoder_of (Ok []))
              "AAPL" (VStr "@@@@") Sample.tracking rejected)
    as (_ & H1 & H2 & H3 & H4).
  - left. reflexivity.
  - repeat split; assumption.
Defined.

(** A frame for MSFT on the AAPL subscription changes nothing; a frame for
    AAPL changes the price fields and keeps the rest. *)
Lemma message_changes_price_fields_only_witness :
  let on_frame := fun frame =>
    snd (Extension.on_message (Sample.atob_of (Ok "")) (Sample.decoder_of (Ok frame))
           "AAPL" (VStr "CgRBQVBM") Sample.tracking) in
  Extension.stockInformation
    (on_frame [("id", VStr "MSFT"); ("price", VNum 410); ("dayHigh", VNum 415)])
  = Some Sample.aapl
  /\ exists si',
      Extension.stockInformation
        (on_frame [("id", VStr "AAPL"); ("price", VNum 101); ("dayHigh", VNum 115)])
      = Some si'
      /\ name si' = VStr "Apple Inc."
      /\ sector si' = VStr "Technology"
      /\ previous_close (price si') = VNum 98.
Proof.
  intros on_frame. split.
  - destruct (message_changes_price_fields_only
                (Sample.atob_of (Ok ""))
                (Sample.decoder_of (Ok [("id", VStr "MSFT"); ("price", VNum 410);
                                        ("dayHigh", VNum 415)]))
                "AAPL" (VStr "CgRBQVBM") Sample.tracking) as (_ & _ & H).
    exact (H _ eq_refl eq_refl).
  - destruct (message_changes_price_fields_only
                (Sample.atob_of (Ok ""))
                (Sample.decoder_of (Ok [("id", VStr "AAPL"); ("price", VNum 101);
                                        ("dayHigh", VNum 115)]))
                "AAPL" (VStr "CgRBQVBM") Sample.tracking) as (H & _ & _).
    destruct (H Sample.aapl eq_refl) as (si' & E & _ & _ & Hn & _ & _ & _ & Hs & Hp).
    exists si'. repeat split; assumption.
Defined.

(** What the five assignments do to the price fields. *)
Lemma merge_price (content : list (string * jsval)) (si : StockInformation) :
  let p := price (Extension.merge content si) in
  current p = assoc "price" content
  /\ day_high p = (if truthy (assoc "dayHigh" content) then assoc "dayHigh" content
                   else day_high (price si))
  /\ day_low p = (if truthy (assoc "dayLow" content) then assoc "dayLow" content
                  else day_low (price si))
  /\ day_volume p = (if truthy (assoc "dayVolume" content) then assoc "dayVolume" content
                     else day_volume (price si))
  /\ updated_at p = VDateOfParseInt (assoc "time" content).
Proof. repeat split. Qed.

(** C1, on the code.  The AAPL record has current 100 and day high 110.
    A frame for AAPL with price 0 sets [current] to 0; a frame for AAPL that
    carries only [dayHigh] = 115 sets [day_high] to 115 and [current] to
    undefined, after which the status bar cannot render the record (the
    handler logs a TypeError).  [current] is assigned [content.price]
    without the fallback its three siblings have. *)
Theorem current_is_overwritten_unconditionally :
  let on_frame := fun frame =>
    snd (Extension.on_message (Sample.atob_of (Ok "")) (Sample.decoder_of (Ok frame))
           "AAPL" (VStr "CgRBQVBM") Sample.tracking) in
  let zero_price := on_frame [("id", VStr "AAPL"); ("price", VNum 0)] in
  let high_only := on_frame [("id", VStr "AAPL"); ("dayHigh", VNum 115)] in
  option_map (fun si => (current (price si), day_high (price si)))
             (Extension.stockInformation zero_price)
  = Some (VNum 0, VNum 110)
  /\ option_map (fun si => (current (price si), day_high (price si)))
                (Extension.stockInformation high_only)
     = Some (VUndefined, VNum 115)
  /\ hd_error (trace (Extension.world high_only))
     = Some (Console Err "Failed to process WebSocket message:" (Some TypeError)).
Proof. cbv zeta. repeat split. Qed.

Section ExtensionLifecycle.

Variable atob : jsval -> result string.
Variable PricingData_decode_toJSON : list Byte.byte -> result (list (string * jsval)).

Lemma extension_step_current_only (c : Extension.call) (s : Extension.t) :
  current_only (Extension.ws s) (sockets (Extension.world s)) ->
  current_only
    (Extension.ws (Extension.step atob PricingData_decode_toJSON c s))
    (sockets (Extension.world (Extension.step atob PricingData_decode_toJSON c s))).
Proof.
  intros H. destruct c as [ticker | | id | id data | id | id]; cbn [Extension.step].
  - unfold Extension.subscribeToStockPrice.
    apply (current_only_replace _ _ {| readyState := CONNECTING; ticker_of := ticker |}) in H.
    destruct (Extension.ws s); exact H.
  - unfold Extension.deactivate.
    destruct (Extension.ws s) as [id | ] eqn:E; cbn; rewrite E; [ | exact H].
    apply current_only_update; [intros; apply quiet_close | exact H].
  - destruct (nth_error (sockets (Extension.world s)) id) as [sk | ]; [ | exact H].
    destruct (is_connecting sk); [ | exact H].
    unfold Extension.on_open. cbn [Extension.set_world Extension.ws].
    destruct (Extension.ws s) eqn:E; cbn; rewrite E;
      apply (current_only_update _ _ id open_socket quiet_open H).
  - destruct (nth_error (sockets (Extension.world s)) id) as [sk | ]; [ | exact H].
    destruct (on_message_frame atob PricingData_decode_toJSON (ticker_of sk) data s)
      as (Fw & Fs & _).
    cbv zeta in Fw, Fs. rewrite Fw, Fs. exact H.
  - destruct (nth_error (sockets (Extension.world s)) id) as [sk | ]; [ | exact H].
    destruct (is_closed sk); [exact H | ]. cbn.
    apply current_only_update; [intros; apply quiet_end | exact H].
  - destruct (nth_error (sockets (Extension.world s)) id) as [sk | ]; exact H.
Qed.

Lemma extension_run_current_only (cs : list Extension.call) :
  forall s : Extension.t,
    current_only (Extension.ws s) (sockets (Extension.world s)) ->
    current_only
      (Extension.ws (Extension.run atob PricingData_decode_toJSON cs s))
      (sockets (Extension.world (Extension.run atob PricingData_decode_toJSON cs s))).
Proof.
  induction cs as [ | c cs IH]; intros s H; [exact H | ].
  cbn [Extension.run fold_left]. apply IH. apply extension_step_current_only. exact H.
Qed.

End ExtensionLifecycle.

Lemma update_socket_nth (f : socket -> socket) (l : list socket) :
  forall (i : nat) (sk : socket),
    i < length l ->
    nth_error (update_socket i f l) i = Some sk ->
    exists sk0, nth_error l i = Some sk0 /\ sk = f sk0.
Proof.
  induction l as [ | x l IH]; intros i sk Hi; cbn [length] in Hi; [lia | ].
  destruct i as [ | i]; cbn [update_socket nth_error].
  - intros E. injection E as <-. exists x. split; reflexivity.
  - apply IH. lia.
Qed.

(** C8. From a new instance (a fresh module state), after any sequence of
    calls and socket events, at most one socket is live, that is connecting
    or open; a socket on which [close()] was called is closing and no longer
    counts.  A subscription made while [webSocket] (resp. [ws]) refers to a
    socket closes that socket first and then creates the new one, so that
    the old socket is not live when the new one exists. *)
Theorem single_live_connection :
  (forall (net : nat -> request -> net_result) (cs : list YahooFinance.call),
      live_connections (YahooFinance.world (YahooFinance.run cs (YahooFinance.new (fresh net))))
      <= 1)
  /\ (forall (atob : jsval -> result string)
             (decode : list Byte.byte -> result (list (string * jsval)))
             (net : nat -> request -> net_result) (cs : list Extension.call),
      live_connections
        (Extension.world (Extension.run atob decode cs (Extension.init (fresh net)))) <= 1)
  /\ (forall (s : YahooFinance.t) (ticker : string) (old : nat),
      YahooFinance.webSocket s = Some old ->
      old < length (sockets (YahooFinance.world s)) ->
      let s' := snd (YahooFinance.subscribeToStockPrice ticker s) in
      let new := length (sockets (YahooFinance.world s)) in
      trace (YahooFinance.world s') = WsNew new :: WsClose old :: trace (YahooFinance.world s)
      /\ YahooFinance.webSocket s' = Some new
      /\ forall sk, nth_error (sockets (YahooFinance.world s')) old = Some sk ->
                    live (readyState sk) = false)
  /\ (forall (s : Extension.t) (ticker : string) (old : nat),
      Extension.ws s = Some old ->
      old < length (sockets (Extension.world s)) ->
      let s' := snd (Extension.subscribeToStockPrice ticker s) in
      let new := length (sockets (Extension.world s)) in
      trace (Extension.world s') = WsNew new :: WsClose old :: trace (Extension.world s)
      /\ Extension.ws s' = Some new
      /\ forall sk, nth_error (sockets (Extension.world s')) old = Some sk ->
                    live (readyState sk) = false).
Proof.
  repeat apply conj.
  - intros net cs. unfold live_connections.
    apply (current_only_live (YahooFinance.webSocket
                                (YahooFinance.run cs (YahooFinance.new (fresh net))))).
    apply run_current_only. reflexivity.
  - intros atob decode net cs. unfold live_connections.
    apply (current_only_live (Extension.ws
                                (Extension.run atob decode cs (Extension.init (fresh net))))).
    apply extension_run_current_only. reflexivity.
  - intros s ticker old Hw Hold. cbv zeta.
    unfold YahooFinance.subscribeToStockPrice. rewrite Hw.
    cbn [ws_new ws_close snd YahooFinance.set_world YahooFinance.set_webSocket
           YahooFinance.world YahooFinance.webSocket emit set_sockets sockets trace].
    rewrite update_socket_length. repeat split.
    intros sk Hsk.
    rewrite nth_error_app1 in Hsk by (rewrite update_socket_length; exact Hold).
    destruct (update_socket_nth close_socket _ old sk Hold Hsk) as (sk0 & _ & ->).
    apply quiet_close.
  - intros s ticker old Hw Hold. cbv zeta.
    unfold Extension.subscribeToStockPrice. rewrite Hw.
    cbn [ws_new ws_close snd Extension.set_world Extension.set_ws
           Extension.world Extension.ws emit set_sockets sockets trace].
    rewrite update_socket_length. repeat split.
    intros sk Hsk.
    rewrite nth_error_app1 in Hsk by (rewrite update_socket_length; exact Hold).
    destruct (update_socket_nth close_socket _ old sk Hold Hsk) as (sk0 & _ & ->).
    apply quiet_close.
Qed.

(** Subscribe to AAPL, let the socket open, subscribe to MSFT: the first
    socket is closing, the second connecting. *)
Lemma single_live_connection_witness :
  let s := YahooFinance.run
             [YahooFinance.Subscribe "AAPL"; YahooFinance.SocketOpen 0;
              YahooFinance.Subscribe "MSFT"]
             (YahooFinance.new (fresh Sample.offline)) in
  live_connections (YahooFinance.world s) <= 1
  /\ map readyState (sockets (YahooFinance.world s)) = [CLOSING; CONNECTING]
  /\ trace (YahooFinance.world s) = [WsNew 1; WsClose 0; WsSend 0 ["AAPL"]; WsNew 0].
Proof.
  intros s. destruct single_live_connection as (H & _ & _ & _).
  split; [apply H | split; reflexivity].
Defined.

(** * Further properties *)

(** ** The session bootstrap *)

(** The cookie request is refused: nothing of the session changes. *)
Lemma initialize_cookie_refused (s : YahooFinance.t) :
  accepts (fun status => (status =? 404)%Z)
          (net (YahooFinance.world s) (sent (YahooFinance.world s)) cookie_request) = false ->
  exists s',
    YahooFinance.initialize s = (Throw (Error "YahooFinance initialization failed"), s')
    /\ YahooFinance.cookie s' = YahooFinance.cookie s
    /\ YahooFinance.crumb s' = YahooFinance.crumb s
    /\ sent (YahooFinance.world s') = S (sent (YahooFinance.world s)).
Proof.
  intros H.
  unfold YahooFinance.initialize, try_catch, bind, YahooFinance.fetchCookie, bind,
    YahooFinance.get, YahooFinance.in_world, axios_get.
  destruct (net (YahooFinance.world s) (sent (YahooFinance.world s)) cookie_request)
    as [ | rc]; cbn [accepts] in H; [ | rewrite H];
    (eexists; split; [reflexivity | repeat split]).
Qed.

(** The cookie response has no cookie: the instance is left with the empty
    cookie and the crumb endpoint is not asked. *)
Lemma initialize_cookie_absent (s : YahooFinance.t) (rc : response) :
  net (YahooFinance.world s) (sent (YahooFinance.world s)) cookie_request = NetResponse rc ->
  status rc = 404%Z ->
  truthy (opt_index0 (set_cookie rc)) = false ->
  exists s',
    YahooFinance.initialize s = (Throw (Error "YahooFinance initialization failed"), s')
    /\ YahooFinance.cookie s' = VStr ""
    /\ YahooFinance.crumb s' = YahooFinance.crumb s
    /\ sent (YahooFinance.world s') = S (sent (YahooFinance.world s)).
Proof.
  intros Hc Hs Ht.
  unfold YahooFinance.initialize, try_catch, bind, YahooFinance.fetchCookie, bind,
    YahooFinance.get, YahooFinance.in_world, axios_get.
  rewrite Hc, Hs. cbn [Z.eqb Pos.eqb ret].
  unfold or_else. rewrite Ht.
  unfold YahooFinance.fetchCrumb.
  cbn [YahooFinance.set_cookie_field YahooFinance.set_world YahooFinance.cookie truthy negb].
  eexists. split; [reflexivity | repeat split].
Qed.

(** The cookie arrives and the crumb request is refused: the new cookie
    stays, the crumb is the old one. *)
Lemma initialize_crumb_refused (s : YahooFinance.t) (rc : response) :
  net (YahooFinance.world s) (sent (YahooFinance.world s)) cookie_request = NetResponse rc ->
  status rc = 404%Z ->
  truthy (opt_index0 (set_cookie rc)) = true ->
  accepts default_validateStatus
          (net (YahooFinance.world s) (S (sent (YahooFinance.world s)))
               (crumb_request (opt_index0 (set_cookie rc)))) = false ->
  exists s',
    YahooFinance.initialize s = (Throw (Error "YahooFinance initialization failed"), s')
    /\ YahooFinance.cookie s' = opt_index0 (set_cookie rc)
    /\ YahooFinance.crumb s' = YahooFinance.crumb s
    /\ sent (YahooFinance.world s') = S (S (sent (YahooFinance.world s))).
Proof.
  intros Hc Hs Ht Hk.
  unfold YahooFinance.initialize, try_catch, bind, YahooFinance.fetchCookie, bind,
    YahooFinance.get, YahooFinance.in_world, axios_get.
  rewrite Hc, Hs. cbn [Z.eqb Pos.eqb ret].
  unfold or_else. rewrite Ht.
  unfold YahooFinance.fetchCrumb.
  cbn [YahooFinance.set_cookie_field YahooFinance.set_world YahooFinance.cookie
         YahooFinance.world net sent].
  rewrite Ht. cbn [negb].
  unfold bind, YahooFinance.get, YahooFinance.in_world, axios_get.
  cbn [YahooFinance.set_cookie_field YahooFinance.set_world YahooFinance.cookie
         YahooFinance.world net sent].
  destruct (net (YahooFinance.world s) (S (sent (YahooFinance.world s)))
                (crumb_request (opt_index0 (set_cookie rc)))) as [ | rk];
    cbn [accepts] in Hk; [ | rewrite Hk];
    (eexists; split; [reflexivity | repeat split]).
Qed.

Lemma initialize_sends_two (s : YahooFinance.t) (rc rk : response) :
  net (YahooFinance.world s) (sent (YahooFinance.world s)) cookie_request = NetResponse rc ->
  status rc = 404%Z ->
  truthy (opt_index0 (set_cookie rc)) = true ->
  net (YahooFinance.world s) (S (sent (YahooFinance.world s)))
      (crumb_request (opt_index0 (set_cookie rc))) = NetResponse rk ->
  default_validateStatus (status rk) = true ->
  exists s',
    YahooFinance.initialize s = (Ok tt, s')
    /\ YahooFinance.cookie s' = opt_index0 (set_cookie rc)
    /\ YahooFinance.crumb s' = data rk
    /\ sent (YahooFinance.world s') = S (S (sent (YahooFinance.world s))).
Proof.
  intros Hc Hs Ht Hk Hv.
  unfold YahooFinance.initialize, try_catch, bind, YahooFinance.fetchCookie, bind,
    YahooFinance.get, YahooFinance.in_world, axios_get.
  rewrite Hc, Hs. cbn [Z.eqb Pos.eqb ret].
  unfold or_else. rewrite Ht.
  unfold YahooFinance.fetchCrumb.
  cbn [YahooFinance.set_cookie_field YahooFinance.set_world YahooFinance.cookie
         YahooFinance.world net sent].
  rewrite Ht. cbn [negb].
  unfold bind, YahooFinance.get, YahooFinance.in_world, axios_get.
  cbn [YahooFinance.set_cookie_field YahooFinance.set_world YahooFinance.cookie
         YahooFinance.world net sent].
  rewrite Hk, Hv.
  eexists. split; [reflexivity | ]. repeat split.
Qed.

Lemma accepts_response (validate : Z -> bool) (a : net_result) :
  accepts validate a = true -> exists r, a = NetResponse r /\ validate (status r) = true.
Proof.
  destruct a as [ | r]; cbn [accepts]; [discriminate | ].
  intros H. exists r. split; [reflexivity | exact H].
Qed.

Lemma initialize_outcome (s : YahooFinance.t) :
  exists s',
    (YahooFinance.initialize s = (Ok tt, s')
     /\ truthy (YahooFinance.cookie s') = true
     /\ sent (YahooFinance.world s') = sent (YahooFinance.world s) + 2)
    \/ (YahooFinance.initialize s = (Throw (Error "YahooFinance initialization failed"), s')
        /\ sent (YahooFinance.world s) < sent (YahooFinance.world s')
           <= sent (YahooFinance.world s) + 2).
Proof.
  destruct (accepts (fun status => (status =? 404)%Z)
              (net (YahooFinance.world s) (sent (YahooFinance.world s)) cookie_request))
    eqn:Ha.
  - apply accepts_response in Ha. destruct Ha as (rc & Hc & Hs).
    apply Z.eqb_eq in Hs.
    destruct (truthy (opt_index0 (set_cookie rc))) eqn:Ht.
    + destruct (accepts default_validateStatus
                  (net (YahooFinance.world s) (S (sent (YahooFinance.world s)))
                       (crumb_request (opt_index0 (set_cookie rc))))) eqn:Hb.
      * apply accepts_response in Hb. destruct Hb as (rk & Hk & Hv).
        destruct (initialize_sends_two s rc rk Hc Hs Ht Hk Hv) as (s' & E & Ec & _ & En).
        exists s'. left. repeat split; [exact E | rewrite Ec; exact Ht | lia].
      * destruct (initialize_crumb_refused s rc Hc Hs Ht Hb) as (s' & E & _ & _ & En).
        exists s'. right. split; [exact E | lia].
    + destruct (initialize_cookie_absent s rc Hc Hs Ht) as (s' & E & _ & _ & En).
      exists s'. right. split; [exact E | lia].
  - destruct (initialize_cookie_refused s Ha) as (s' & E & _ & _ & En).
    exists s'. right. split; [exact E | lia].
Qed.

Lemma guarded_initialize_outcome (s : YahooFinanceGuarded.t) :
  exists s',
    (YahooFinanceGuarded.initialize s = (Ok tt, s')
     /\ truthy (YahooFinanceGuarded.cookie s') = true
     /\ sent (YahooFinanceGuarded.world s') = sent (YahooFinanceGuarded.world s) + 2)
    \/ (YahooFinanceGuarded.initialize s = (Throw (Error "Initialization failed"), s')
        /\ sent (YahooFinanceGuarded.world s) < sent (YahooFinanceGuarded.world s')
           <= sent (YahooFinanceGuarded.world s) + 2).
Proof.
  unfold YahooFinanceGuarded.initialize, try_catch, bind, YahooFinanceGuarded.fetchCookie,
    try_catch, bind, YahooFinanceGuarded.get, YahooFinanceGuarded.in_world, axios_get,
    YahooFinanceGuarded.handleError, bind, YahooFinanceGuarded.console, throw, ret.
  destruct (net (YahooFinanceGuarded.world s) (sent (YahooFinanceGuarded.world s))
                cookie_request) as [ | rc];
    [ | destruct (YahooFinanceGuarded.isValidResponse (status rc)) ];
    cbn [YahooFinanceGuarded.set_world YahooFinanceGuarded.world emit sent];
    try (eexists; right; split; [reflexivity | cbn; lia]).
  unfold YahooFinanceGuarded.fetchCrumb.
  cbn [YahooFinanceGuarded.set_cookie_field YahooFinanceGuarded.cookie].
  destruct (truthy (YahooFinanceGuarded.extractCookie rc)) eqn:Ht; cbn [negb];
    [ | eexists; right; split; [reflexivity | cbn; lia] ].
  unfold try_catch, bind, YahooFinanceGuarded.get, YahooFinanceGuarded.in_world, axios_get,
    YahooFinanceGuarded.handleError, bind, YahooFinanceGuarded.console, throw, lift_result,
    YahooFinanceGuarded.extractCrumb.
  cbn [YahooFinanceGuarded.set_cookie_field YahooFinanceGuarded.set_world
         YahooFinanceGuarded.world YahooFinanceGuarded.cookie net sent].
  match goal with
  | |- context [match ?x with NetFail => _ | NetResponse _ => _ end] =>
      destruct x as [ | rk];
      [ | destruct (default_validateStatus (status rk));
          [ destruct (status rk =? 200)%Z | ] ]
  end;
    cbn [negb];
    first [ eexists; left; split; [reflexivity | split; [exact Ht | cbn; lia] ]
          | eexists; right; split; [reflexivity | cbn; lia] ].
Qed.

(** X1. [initialize] has two outcomes in each revision.  It returns, having
    sent exactly two requests and holding a truthy cookie; or it throws its
    one error ("YahooFinance initialization failed", resp. "Initialization
    failed"), having sent one or two requests.  No other exception leaves
    it. *)
Theorem initialize_outcomes :
  (forall s : YahooFinance.t,
      let r := fst (YahooFinance.initialize s) in
      let s' := snd (YahooFinance.initialize s) in
      (r = Ok tt
       /\ truthy (YahooFinance.cookie s') = true
       /\ sent (YahooFinance.world s') = sent (YahooFinance.world s) + 2)
      \/ (r = Throw (Error "YahooFinance initialization failed")
          /\ sent (YahooFinance.world s) < sent (YahooFinance.world s')
             <= sent (YahooFinance.world s) + 2))
  /\ (forall s : YahooFinanceGuarded.t,
      let r := fst (YahooFinanceGuarded.initialize s) in
      let s' := snd (YahooFinanceGuarded.initialize s) in
      (r = Ok tt
       /\ truthy (YahooFinanceGuarded.cookie s') = true
       /\ sent (YahooFinanceGuarded.world s') = sent (YahooFinanceGuarded.world s) + 2)
      \/ (r = Throw (Error "Initialization failed")
          /\ sent (YahooFinanceGuarded.world s) < sent (YahooFinanceGuarded.world s')
             <= sent (YahooFinanceGuarded.world s) + 2)).
Proof.
  split; intros s; cbv zeta.
  - destruct (initialize_outcome s) as (s' & [(E & H) | (E & H)]); rewrite E; cbn [fst snd];
      [left | right]; split; auto.
  - destruct (guarded_initialize_outcome s) as (s' & [(E & H) | (E & H)]);
      rewrite E; cbn [fst snd]; [left | right]; split; auto.
Qed.

(** X2. How [initialize] of src/src/YahooFinance.ts fails, and what it
    leaves behind.
    - The cookie request is refused (it fails, or its status is anything but
      404, 200 included): cookie and crumb are untouched.
    - The cookie response carries no cookie: the cookie becomes the empty
      string, the crumb endpoint is not asked, and from then on [getQuote]
      throws "not initialized", whatever session the instance held before.
    - The cookie arrives and the crumb request is refused: the instance
      holds the new cookie with the old crumb. *)
Theorem initialize_failures (s : YahooFinance.t) :
  (accepts (fun status => (status =? 404)%Z)
           (net (YahooFinance.world s) (sent (YahooFinance.world s)) cookie_request) = false ->
   exists s',
     YahooFinance.initialize s = (Throw (Error "YahooFinance initialization failed"), s')
     /\ YahooFinance.cookie s' = YahooFinance.cookie s
     /\ YahooFinance.crumb s' = YahooFinance.crumb s
     /\ sent (YahooFinance.world s') = S (sent (YahooFinance.world s)))
  /\ (forall rc : response,
      net (YahooFinance.world s) (sent (YahooFinance.world s)) cookie_request
      = NetResponse rc ->
      status rc = 404%Z ->
      truthy (opt_index0 (set_cookie rc)) = false ->
      exists s',
        YahooFinance.initialize s = (Throw (Error "YahooFinance initialization failed"), s')
        /\ YahooFinance.cookie s' = VStr ""
        /\ sent (YahooFinance.world s') = S (sent (YahooFinance.world s))
        /\ forall symbol,
            YahooFinance.getQuote symbol s' = (Throw YahooFinance.not_initialized, s'))
  /\ (forall rc : response,
      net (YahooFinance.world s) (sent (YahooFinance.world s)) cookie_request
      = NetResponse rc ->
      status rc = 404%Z ->
      truthy (opt_index0 (set_cookie rc)) = true ->
      accepts default_validateStatus
              (net (YahooFinance.world s) (S (sent (YahooFinance.world s)))
                   (crumb_request (opt_index0 (set_cookie rc)))) = false ->
      exists s',
        YahooFinance.initialize s = (Throw (Error "YahooFinance initialization failed"), s')
        /\ YahooFinance.cookie s' = opt_index0 (set_cookie rc)
        /\ YahooFinance.crumb s' = YahooFinance.crumb s).
Proof.
  repeat apply conj.
  - intros H. apply initialize_cookie_refused. exact H.
  - intros rc Hc Hs Ht.
    destruct (initialize_cookie_absent s rc Hc Hs Ht) as (s' & E & Ec & _ & En).
    exists s'. repeat split; try assumption.
    intros symbol. apply getQuote_uninitialized. right. rewrite Ec. reflexivity.
  - intros rc Hc Hs Ht Hk.
    destruct (initialize_crumb_refused s rc Hc Hs Ht Hk) as (s' & E & Ec & Ek & _).
    exists s'. repeat split; assumption.
Qed.

(** An instance with a session: a cookie endpoint that answers 200 leaves
    the session alone; one that answers 404 without a cookie wipes it. *)
Lemma initialize_failures_witness :
  let with_cookie_reply := fun (status : Z) (set_cookie : jsval) =>
    Sample.session (fun _ _ => NetResponse {| World.status := status;
                                              World.set_cookie := set_cookie;
                                              data := VStr "" |}) in
  (YahooFinance.cookie
     (snd (YahooFinance.initialize (with_cookie_reply 200%Z (VArr [Sample.the_cookie]))))
   = Sample.the_cookie
   /\ fst (YahooFinance.initialize (with_cookie_reply 200%Z (VArr [Sample.the_cookie])))
      = Throw (Error "YahooFinance initialization failed"))
  /\ (YahooFinance.cookie (snd (YahooFinance.initialize (with_cookie_reply 404%Z VUndefined)))
      = VStr ""
      /\ fst (YahooFinance.getQuote "AAPL"
                (snd (YahooFinance.initialize (with_cookie_reply 404%Z VUndefined))))
         = Throw YahooFinance.not_initialized).
Proof.
  intros with_cookie_reply. split.
  - destruct (initialize_failures (with_cookie_reply 200%Z (VArr [Sample.the_cookie])))
      as (H & _ & _).
    destruct H as (s' & E & Ec & _ & _); [reflexivity | ].
    rewrite E. cbn [fst snd]. split; [exact Ec | reflexivity].
  - destruct (initialize_failures (with_cookie_reply 404%Z VUndefined)) as (_ & H & _).
    destruct (H {| World.status := 404; World.set_cookie := VUndefined; data := VStr "" |})
      as (s' & E & Ec & _ & Hq); try reflexivity.
    rewrite E. cbn [fst snd]. split; [exact Ec | rewrite Hq; reflexivity].
Defined.

(** ** Requests, errors and the cost of a quote *)

Lemma request_loop_outcome (u : string) (p : list (string * jsval)) :
  forall (remaining a : nat) (s : YahooFinance.t),
    let r := fst (YahooFinance.request_loop u p a remaining s) in
    let s' := snd (YahooFinance.request_loop u p a remaining s) in
    sent (YahooFinance.world s') <= sent (YahooFinance.world s) + 3 * remaining
    /\ (forall e, r = Throw e ->
                  e = Error "Failed to fetch data after multiple attempts"
                  \/ e = Error "YahooFinance initialization failed")
    /\ (forall resp, r = Ok resp -> YahooFinance.validateStatus (status resp) = true).
Proof.
  induction remaining as [ | n IH]; intros a s; cbv zeta.
  - cbn. repeat split; [lia | | discriminate].
    intros e H. injection H as <-. left. reflexivity.
  - destruct (accepts YahooFinance.validateStatus
                (net (YahooFinance.world s) (sent (YahooFinance.world s))
                     (YahooFinance.data_request u p s))) eqn:Ha.
    + apply accepts_response in Ha. destruct Ha as (resp & Hr & Hv).
      destruct (request_loop_returns u p a n s resp Hr Hv) as (s' & E & Hs & _).
      rewrite E. cbn [fst snd]. repeat split; [lia | discriminate | ].
      intros resp' H. injection H as <-. exact Hv.
    + destruct (request_loop_retry u p a n s Ha) as (s1 & E & _ & Hs1 & _).
      rewrite E.
      destruct (initialize_outcome s1) as (s2 & [(Ei & _ & Hs2) | (Ei & Hs2)]); rewrite Ei.
      * specialize (IH (S a) s2). cbv zeta in IH. destruct IH as (Ib & Ie & Io).
        repeat split; [lia | exact Ie | exact Io].
      * cbn [fst snd]. repeat split; [lia | | discriminate].
        intros e H. injection H as <-. right. reflexivity.
Qed.

Lemma getQuote_outcome (symbol : string) (s : YahooFinance.t) :
  sent (YahooFinance.world (snd (YahooFinance.getQuote symbol s)))
  <= sent (YahooFinance.world s) + 18
  /\ (forall e, fst (YahooFinance.getQuote symbol s) = Throw e ->
                e = YahooFinance.not_initialized
                \/ e = Error "Failed to fetch data after multiple attempts"
                \/ e = Error "YahooFinance initialization failed"
                \/ e = TypeError).
Proof.
  destruct (YahooFinance.getQuote symbol s) as [r s'] eqn:E. cbn [fst snd].
  revert E. unfold YahooFinance.getQuote.
  destruct (negb (truthy (YahooFinance.crumb s)) || negb (truthy (YahooFinance.cookie s))).
  { intros E. injection E as <- <-. split; [lia | ].
    intros e H. injection H as <-. left. reflexivity. }
  unfold bind at 1. unfold YahooFinance.fetchTickerQuote, YahooFinance.request.
  match goal with
  | |- context [YahooFinance.request_loop ?u ?p ?a ?n s] =>
      pose proof (request_loop_outcome u p n a s) as (Qb & Qe & _);
      cbv zeta in Qb, Qe;
      destruct (YahooFinance.request_loop u p a n s) as [[rq | e1] s1]
  end; cbn [fst snd] in *.
  2:{ intros E. injection E as <- <-. split; [unfold YahooFinance.maxAttempts in Qb; lia | ].
      intros e H. injection H as <-. right.
      destruct (Qe e1 eq_refl) as [-> | ->]; [left | right; left]; reflexivity. }
  destruct (status rq =? 404)%Z.
  { cbn. intros E. injection E as <- <-. cbn.
    split; [unfold YahooFinance.maxAttempts in Qb; lia | discriminate]. }
  unfold bind at 1. unfold YahooFinance.fetchTickerPrice, YahooFinance.request.
  match goal with
  | |- context [YahooFinance.request_loop ?u ?p ?a ?n s1] =>
      pose proof (request_loop_outcome u p n a s1) as (Pb & Pe & _);
      cbv zeta in Pb, Pe;
      destruct (YahooFinance.request_loop u p a n s1) as [[rp | e2] s2]
  end; cbn [fst snd] in *.
  2:{ intros E. injection E as <- <-.
      split; [unfold YahooFinance.maxAttempts in Qb, Pb; lia | ].
      intros e H. injection H as <-. right.
      destruct (Pe e2 eq_refl) as [-> | ->]; [left | right; left]; reflexivity. }
  unfold bind, lift_result, ret.
  destruct (YahooFinance.parseStockInformation rq rp) as [si | e3] eqn:Ep;
    intros E; injection E as <- <-;
    (split; [unfold YahooFinance.maxAttempts in Qb, Pb; lia | ]).
  - discriminate.
  - intros e H. injection H as <-. right. right. right.
    eapply parse_throws. exact Ep.
Qed.

(** X3. What a quote costs and how it can fail, in src/src/YahooFinance.ts.
    [request] sends at most 9 HTTP requests (3 attempts, each failed one
    followed by a bootstrap of two), so [getQuote] sends at most 18.  A
    response that [request] returns has a status in 200..299 or 404.
    [request] throws nothing but "Failed to fetch data after multiple
    attempts" and "YahooFinance initialization failed"; [getQuote] adds the
    "not initialized" error and the TypeError of the parse. *)
Theorem getQuote_cost_and_errors (symbol : string) (s : YahooFinance.t) :
  (forall (u : string) (p : list (string * jsval)),
      let r := fst (YahooFinance.request u p s) in
      let s' := snd (YahooFinance.request u p s) in
      sent (YahooFinance.world s') <= sent (YahooFinance.world s) + 9
      /\ (forall e, r = Throw e ->
                    e = Error "Failed to fetch data after multiple attempts"
                    \/ e = Error "YahooFinance initialization failed")
      /\ (forall resp, r = Ok resp -> YahooFinance.validateStatus (status resp) = true))
  /\ sent (YahooFinance.world (snd (YahooFinance.getQuote symbol s)))
     <= sent (YahooFinance.world s) + 18
  /\ (forall e, fst (YahooFinance.getQuote symbol s) = Throw e ->
                e = YahooFinance.not_initialized
                \/ e = Error "Failed to fetch data after multiple attempts"
                \/ e = Error "YahooFinance initialization failed"
                \/ e = TypeError).
Proof.
  split.
  - intros u p. apply (request_loop_outcome u p 3 0 s).
  - apply getQuote_outcome.
Qed.

Lemma guarded_get_effect (req : request) (validate : Z -> bool) (s : YahooFinanceGuarded.t) :
  exists s',
    YahooFinanceGuarded.get req validate s
    = (match net (YahooFinanceGuarded.world s) (sent (YahooFinanceGuarded.world s)) req with
       | NetFail => Throw AxiosError
       | NetResponse r => if validate (status r) then Ok r else Throw AxiosError
       end, s')
    /\ YahooFinanceGuarded.cookie s' = YahooFinanceGuarded.cookie s
    /\ YahooFinanceGuarded.crumb s' = YahooFinanceGuarded.crumb s
    /\ sent (YahooFinanceGuarded.world s') = S (sent (YahooFinanceGuarded.world s)).
Proof.
  unfold YahooFinanceGuarded.get, YahooFinanceGuarded.in_world, axios_get.
  destruct (net (YahooFinanceGuarded.world s) (sent (YahooFinanceGuarded.world s)) req)
    as [ | r]; [ | destruct (validate (status r))];
    (eexists; split; [reflexivity | repeat split]).
Qed.

(** X4. [getQuote] of the guarded revision never retries and never touches
    the session: it sends at most two requests (none without a session),
    leaves cookie and crumb as they were, and throws nothing but the "not
    initialized" error and "Failed to fetch quote". *)
Theorem guarded_getQuote_cost_and_errors (symbol : string) (s : YahooFinanceGuarded.t) :
  let r := fst (YahooFinanceGuarded.getQuote symbol s) in
  let s' := snd (YahooFinanceGuarded.getQuote symbol s) in
  sent (YahooFinanceGuarded.world s') <= sent (YahooFinanceGuarded.world s) + 2
  /\ YahooFinanceGuarded.cookie s' = YahooFinanceGuarded.cookie s
  /\ YahooFinanceGuarded.crumb s' = YahooFinanceGuarded.crumb s
  /\ (forall e, r = Throw e ->
                e = YahooFinanceGuarded.not_initialized \/ e = Error "Failed to fetch quote").
Proof.
  cbv zeta.
  destruct (YahooFinanceGuarded.getQuote symbol s) as [r s'] eqn:E. cbn [fst snd].
  revert E. unfold YahooFinanceGuarded.getQuote.
  destruct (negb (truthy (YahooFinanceGuarded.crumb s))
            || negb (truthy (YahooFinanceGuarded.cookie s))).
  { intros E. injection E as <- <-. repeat split; [lia | ].
    intros e H. injection H as <-. left. reflexivity. }
  unfold try_catch, bind at 1. unfold YahooFinanceGuarded.fetchTickerQuote.
  match goal with
  | |- context [YahooFinanceGuarded.get ?q ?v s] =>
      destruct (guarded_get_effect q v s) as (s1 & E1 & Hc1 & Hk1 & Hn1); rewrite E1;
      destruct (net (YahooFinanceGuarded.world s) (sent (YahooFinanceGuarded.world s)) q)
        as [ | rq]; [ | destruct (v (status rq)) ]
  end.
  1, 3: cbn; intros E; injection E as <- <-; cbn;
    (repeat split; [lia | assumption | assumption | ]);
    intros e H; injection H as <-; right; reflexivity.
  destruct (status rq =? 404)%Z.
  { cbn. intros E. injection E as <- <-. cbn.
    repeat split; [lia | assumption | assumption | discriminate]. }
  unfold bind at 1. unfold YahooFinanceGuarded.fetchTickerPrice.
  match goal with
  | |- context [YahooFinanceGuarded.get ?q ?v s1] =>
      destruct (guarded_get_effect q v s1) as (s2 & E2 & Hc2 & Hk2 & Hn2); rewrite E2;
      destruct (net (YahooFinanceGuarded.world s1) (sent (YahooFinanceGuarded.world s1)) q)
        as [ | rp]; [ | destruct (v (status rp)) ]
  end.
  1, 3: cbn; intros E; injection E as <- <-; cbn;
    (repeat split; [lia | congruence | congruence | ]);
    intros e H; injection H as <-; right; reflexivity.
  unfold lift_result.
  destruct (YahooFinanceGuarded.parseStockInformation rq rp symbol) as [o | e3];
    cbn; intros E; injection E as <- <-; cbn;
    (repeat split; [lia | congruence | congruence | ]).
  - discriminate.
  - intros e H. injection H as <-. right. reflexivity.
Qed.

(** ** A parsed quote on the status bar *)




(** ** The life of the connection *)

Lemma live_count_app (l1 l2 : list socket) :
  length (filter (fun s => live (readyState s)) (l1 ++ l2))
  = length (filter (fun s => live (readyState s)) l1)
    + length (filter (fun s => live (readyState s)) l2).
Proof. rewrite filter_app, length_app. reflexivity. Qed.

(** After a replacement exactly one socket is live: the new one. *)
Lemma replace_one_live (ws : option nat) (l : list socket) (ticker : string) :
  current_only ws l ->
  length (filter (fun s => live (readyState s))
            ((match ws with
              | Some old => update_socket old close_socket l
              | None => l
              end) ++ [{| readyState := CONNECTING; ticker_of := ticker |}])) = 1.
Proof.
  intros H. rewrite live_count_app.
  destruct ws as [id | ]; cbn [current_only] in H.
  - destruct H as (pre & cur & -> & -> & Hq).
    rewrite update_socket_last, live_count_app, (filter_quiet pre Hq).
    cbn [filter]. rewrite (quiet_close cur). reflexivity.
  - subst l. reflexivity.
Qed.

(** After the current socket is closed no socket is live. *)
Lemma close_none_live (ws : option nat) (l : list socket) :
  current_only ws l ->
  length (filter (fun s => live (readyState s))
            (match ws with
             | Some id => update_socket id close_socket l
             | None => l
             end)) = 0.
Proof.
  intros H. destruct ws as [id | ]; cbn [current_only] in H.
  - destruct H as (pre & cur & -> & -> & Hq).
    rewrite update_socket_last, live_count_app, (filter_quiet pre Hq).
    cbn [filter]. rewrite (quiet_close cur). reflexivity.
  - subst l. reflexivity.
Qed.

(** A live socket is the one referred to. *)
Lemma live_is_current (ws : option nat) (l : list socket) (id : nat) (sk : socket) :
  current_only ws l ->
  nth_error l id = Some sk ->
  live (readyState sk) = true ->
  ws = Some id.
Proof.
  destruct ws as [cur_id | ]; cbn [current_only].
  - intros (pre & cur & -> & -> & Hq) Hn Hl.
    destruct (Nat.lt_ge_cases id (length pre)) as [Hlt | Hge].
    + rewrite nth_error_app1 in Hn by exact Hlt.
      apply nth_error_In in Hn. rewrite Forall_forall in Hq.
      specialize (Hq sk Hn). unfold quiet in Hq. congruence.
    + rewrite nth_error_app2 in Hn by exact Hge.
      destruct (id - length pre) as [ | k] eqn:Ek.
      * f_equal. lia.
      * cbn in Hn. destruct k; discriminate.
  - intros -> Hn. destruct id; discriminate.
Qed.

Lemma connecting_is_live (sk : socket) : is_connecting sk = true -> live (readyState sk) = true.
Proof. unfold is_connecting. destruct (readyState sk); cbn; congruence. Qed.

(** X6. How many connections are live, in any state the class instance or
    the extension can reach: exactly one right after a subscription, none
    right after [dispose] (resp. [deactivate]). *)
Theorem live_connections_after :
  (forall (net : nat -> request -> net_result) (cs : list YahooFinance.call),
      let s := YahooFinance.run cs (YahooFinance.new (fresh net)) in
      (forall ticker,
          live_connections
            (YahooFinance.world (snd (YahooFinance.subscribeToStockPrice ticker s))) = 1)
      /\ live_connections (YahooFinance.world (snd (YahooFinance.dispose s))) = 0)
  /\ (forall (atob : jsval -> result string)
             (decode : list Byte.byte -> result (list (string * jsval)))
             (net : nat -> request -> net_result) (cs : list Extension.call),
      let s := Extension.run atob decode cs (Extension.init (fresh net)) in
      (forall ticker,
          live_connections
            (Extension.world (snd (Extension.subscribeToStockPrice ticker s))) = 1)
      /\ live_connections (Extension.world (snd (Extension.deactivate s))) = 0).
Proof.
  split.
  - intros net cs s.
    assert (H : current_only (YahooFinance.webSocket s) (sockets (YahooFinance.world s)))
      by (apply run_current_only; reflexivity).
    split.
    + intros ticker. unfold live_connections, YahooFinance.subscribeToStockPrice.
      pose proof (replace_one_live _ _ ticker H) as R.
      destruct (YahooFinance.webSocket s); exact R.
    + unfold live_connections, YahooFinance.dispose.
      pose proof (close_none_live _ _ H) as R.
      destruct (YahooFinance.webSocket s); exact R.
  - intros atob decode net cs s.
    assert (H : current_only (Extension.ws s) (sockets (Extension.world s)))
      by (apply extension_run_current_only; reflexivity).
    split.
    + intros ticker. unfold live_connections, Extension.subscribeToStockPrice.
      pose proof (replace_one_live _ _ ticker H) as R.
      destruct (Extension.ws s); exact R.
    + unfold live_connections, Extension.deactivate.
      pose proof (close_none_live _ _ H) as R.
      destruct (Extension.ws s); exact R.
Qed.

(** X7. In any state the class instance or the extension can reach, a
    socket that is still connecting is the one [webSocket] (resp. [ws])
    refers to.  So when it opens, the subscription message, which the
    handler sends on whatever the reference names at that moment, goes out
    on the socket that opened, for the ticker that socket was created
    with. *)
Theorem open_sends_subscription :
  (forall (net : nat -> request -> net_result) (cs : list YahooFinance.call)
          (id : nat) (sk : socket),
      let s := YahooFinance.run cs (YahooFinance.new (fresh net)) in
      nth_error (sockets (YahooFinance.world s)) id = Some sk ->
      is_connecting sk = true ->
      YahooFinance.webSocket s = Some id
      /\ trace (YahooFinance.world (YahooFinance.step (YahooFinance.SocketOpen id) s))
         = WsSend id [ticker_of sk] :: trace (YahooFinance.world s))
  /\ (forall (atob : jsval -> result string)
             (decode : list Byte.byte -> result (list (string * jsval)))
             (net : nat -> request -> net_result) (cs : list Extension.call)
             (id : nat) (sk : socket),
      let s := Extension.run atob decode cs (Extension.init (fresh net)) in
      nth_error (sockets (Extension.world s)) id = Some sk ->
      is_connecting sk = true ->
      Extension.ws s = Some id
      /\ trace (Extension.world (Extension.step atob decode (Extension.SocketOpen id) s))
         = WsSend id [ticker_of sk] :: trace (Extension.world s)).
Proof.
  split.
  - intros net cs id sk s Hn Hc.
    assert (H : current_only (YahooFinance.webSocket s) (sockets (YahooFinance.world s)))
      by (apply run_current_only; reflexivity).
    pose proof (live_is_current _ _ id sk H Hn (connecting_is_live sk Hc)) as Hw.
    split; [exact Hw | ].
    cbn [YahooFinance.step]. rewrite Hn, Hc. unfold YahooFinance.onopen.
    cbn [YahooFinance.set_world YahooFinance.webSocket]. rewrite Hw. reflexivity.
  - intros atob decode net cs id sk s Hn Hc.
    assert (H : current_only (Extension.ws s) (sockets (Extension.world s)))
      by (apply extension_run_current_only; reflexivity).
    pose proof (live_is_current _ _ id sk H Hn (connecting_is_live sk Hc)) as Hw.
    split; [exact Hw | ].
    cbn [Extension.step]. rewrite Hn, Hc. unfold Extension.on_open.
    cbn [Extension.set_world Extension.ws]. rewrite Hw. reflexivity.
Qed.

(** Two subscriptions in a row: the socket still connecting is the second,
    and its opening sends the MSFT subscription on it. *)
Lemma open_sends_subscription_witness :
  let s := YahooFinance.run [YahooFinance.Subscribe "AAPL"; YahooFinance.Subscribe "MSFT"]
             (YahooFinance.new (fresh Sample.offline)) in
  YahooFinance.webSocket s = Some 1
  /\ trace (YahooFinance.world (YahooFinance.step (YahooFinance.SocketOpen 1) s))
     = WsSend 1 ["MSFT"] :: trace (YahooFinance.world s).
Proof.
  intros s. destruct open_sends_subscription as [H _].
  apply (H Sample.offline [YahooFinance.Subscribe "AAPL"; YahooFinance.Subscribe "MSFT"]
           1 {| readyState := CONNECTING; ticker_of := "MSFT" |}); reflexivity.
Defined.

(** ** The command *)

Section CommandProperties.

Variable toUpperCase : string -> string.

(** [fetchStockInformation] returns, whatever happens inside; it acts on the
    world and on no module variable. *)
Lemma fetchStockInformation_effect (ticker : string) (e : Extension.t) :
  exists o e',
    Command.fetchStockInformation toUpperCase ticker e = (Ok o, e')
    /\ o = match fst ((YahooFinance.initialize ;;
                       YahooFinance.getQuote (toUpperCase ticker))%prog
                        (YahooFinance.new (Extension.world e))) with
           | Ok o => o
           | Throw _ => None
           end
    /\ Extension.stockStatusBar e' = Extension.stockStatusBar e
    /\ Extension.stockInformation e' = Extension.stockInformation e
    /\ Extension.ws e' = Extension.ws e
    /\ sockets (Extension.world e') = sockets (Extension.world e)
    /\ sent (Extension.world e') <= sent (Extension.world e) + 20.
Proof.
  unfold Command.fetchStockInformation, try_catch.
  set (P := (YahooFinance.initialize ;; YahooFinance.getQuote (toUpperCase ticker))%prog
              (YahooFinance.new (Extension.world e))).
  assert (F : sockets (YahooFinance.world (snd P)) = sockets (Extension.world e)
              /\ sent (YahooFinance.world (snd P)) <= sent (Extension.world e) + 20).
  { subst P. set (y0 := YahooFinance.new (Extension.world e)). unfold bind.
    pose proof (initialize_frame y0) as (_ & Fs & _ & _). cbv zeta in Fs.
    destruct (initialize_outcome y0) as (y1 & [(Ei & _ & Hs) | (Ei & Hs)]);
      rewrite Ei in Fs |- *; cbn [fst snd] in Fs |- *;
      subst y0; cbn [YahooFinance.new YahooFinance.world] in Fs, Hs.
    - pose proof (getQuote_frame (toUpperCase ticker) y1) as (Gs & _).
      pose proof (getQuote_outcome (toUpperCase ticker) y1) as (Gn & _).
      cbv zeta in Gs. split; [congruence | lia].
    - split; [exact Fs | lia]. }
  destruct F as (Fs & Fn).
  destruct P as [[o | er] y2]; cbn [fst snd] in *.
  - exists o. eexists. split; [reflexivity | ].
    cbn [Extension.set_world Extension.stockStatusBar Extension.stockInformation
           Extension.ws Extension.world].
    repeat split; assumption.
  - exists None. eexists. split; [reflexivity | ].
    cbn [Extension.set_world Extension.stockStatusBar Extension.stockInformation
           Extension.ws Extension.world emit sockets sent].
    repeat split; assumption.
Qed.

(** X8. [fetchStockInformation] never throws.  Its result is what
    [getQuote] returned on a newly bootstrapped instance, and null when the
    bootstrap or [getQuote] threw: an unknown symbol and a failure look the
    same to the caller.  It changes no module variable and no socket, and
    sends at most 20 requests. *)
Theorem fetchStockInformation_never_throws (ticker : string) (e : Extension.t) :
  let outcome :=
    fst ((YahooFinance.initialize ;; YahooFinance.getQuote (toUpperCase ticker))%prog
           (YahooFinance.new (Extension.world e))) in
  let e' := snd (Command.fetchStockInformation toUpperCase ticker e) in
  fst (Command.fetchStockInformation toUpperCase ticker e)
  = Ok (match outcome with
        | Ok o => o
        | Throw _ => None
        end)
  /\ Extension.stockStatusBar e' = Extension.stockStatusBar e
  /\ Extension.stockInformation e' = Extension.stockInformation e
  /\ Extension.ws e' = Extension.ws e
  /\ sockets (Extension.world e') = sockets (Extension.world e)
  /\ sent (Extension.world e') <= sent (Extension.world e) + 20.
Proof.
  cbv zeta.
  destruct (fetchStockInformation_effect ticker e) as (o & e' & E & -> & H).
  rewrite E. cbn [fst snd]. split; [reflexivity | exact H].
Qed.

(** The callback, case by case, for a ticker that is not empty. *)
Lemma showStock_cases (ticker : string) (s : Command.t) :
  ticker <> "" ->
  exists o e1,
    Command.fetchStockInformation toUpperCase ticker (Command.ext s) = (Ok o, e1)
    /\ Extension.stockStatusBar e1 = Extension.stockStatusBar (Command.ext s)
    /\ Extension.stockInformation e1 = Extension.stockInformation (Command.ext s)
    /\ Extension.ws e1 = Extension.ws (Command.ext s)
    /\ sockets (Extension.world e1) = sockets (Extension.world (Command.ext s))
    /\ Command.showStock toUpperCase (Some ticker) s
       = match o with
         | None =>
             (Ok tt,
              {| Command.ext := e1;
                 Command.ui :=
                   Command.ShowErrorMessage ("Failed to fetch stock information for " ++ ticker)
                     :: Command.ui s |})
         | Some si =>
             if is_number (previous_close (price si)) then
               if StockStatusBar.renders si then
                 (Ok tt,
                  {| Command.ext :=
                       snd (Extension.subscribeToStockPrice ticker
                              (Extension.set_world
                                 (emit BlinkIndicator
                                    (emit (SetStockPrice si) (Extension.world e1)))
                                 (stored si e1)));
                     Command.ui := Command.SetStockSymbol si :: Command.ui s |})
               else
                 (Throw TypeError,
                  {| Command.ext := stored si e1;
                     Command.ui := Command.SetStockSymbol si :: Command.ui s |})
             else
               (Throw TypeError,
                {| Command.ext := stored si e1; Command.ui := Command.ui s |})
         end.
Proof.
  intros Hne.
  destruct (fetchStockInformation_effect ticker (Command.ext s))
    as (o & e1 & E & _ & F1 & F2 & F3 & F4 & _).
  exists o, e1. repeat (split; [assumption | ]).
  destruct ticker as [ | c t]; [congruence | ].
  unfold Command.showStock. unfold bind at 1. unfold Command.in_ext at 1. rewrite E.
  destruct o as [si | ]; [ | reflexivity].
  unfold bind at 1. unfold Command.in_ext at 1.
  unfold Command.updateStockStatusBar, Command.setStockSymbol, bind, Command.in_ext,
    Extension.in_world, StockStatusBar.setStockPrice, StockStatusBar.blinkIndicator.
  cbn [Command.ext Command.ui Command.set_ext Extension.set_stockInformation
         Extension.stockStatusBar Extension.stockInformation Extension.ws Extension.world].
  destruct (is_number (previous_close (price si))); [ | reflexivity].
  cbn [Command.ext Command.ui Command.set_ext Extension.world].
  destruct (StockStatusBar.renders si); [ | reflexivity].
  cbn [Command.ext Command.ui Command.set_ext Extension.world Extension.set_world snd].
  destruct (Extension.subscribeToStockPrice (String c t) _) as [[[] | er] e2] eqn:Es;
    [reflexivity | ].
  exfalso. revert Es. unfold Extension.subscribeToStockPrice. discriminate.
Qed.


(** The command keeps the shape of the sockets: the reference names the
    last one created, the others are quiet. *)
Lemma showStock_current_only (typed : option string) (s : Command.t) :
  current_only (Extension.ws (Command.ext s)) (sockets (Extension.world (Command.ext s))) ->
  let e' := Command.ext (snd (Command.showStock toUpperCase typed s)) in
  current_only (Extension.ws e') (sockets (Extension.world e')).
Proof.
  intros H. cbv zeta.
  destruct typed as [ticker | ]; [ | exact H].
  destruct (string_dec ticker "") as [-> | Hne]; [exact H | ].
  destruct (showStock_cases ticker s Hne) as (o & e1 & _ & _ & _ & F3 & F4 & C).
  rewrite C. rewrite <- F3, <- F4 in H.
  destruct o as [si | ]; [ | exact H].
  destruct (is_number (previous_close (price si))); [ | exact H].
  destruct (StockStatusBar.renders si); [ | exact H].
  cbn [snd Command.ext]. unfold Extension.subscribeToStockPrice.
  apply (current_only_replace _ _ {| readyState := CONNECTING; ticker_of := ticker |}) in H.
  cbn [stored Extension.set_world Extension.ws Extension.world].
  destruct (Extension.ws e1); exact H.
Qed.

End CommandProperties.




Section CommandLifecycle.

Variable toUpperCase : string -> string.
Variable atob : jsval -> result string.
Variable PricingData_decode_toJSON : list Byte.byte -> result (list (string * jsval)).

Lemma command_run_current_only (inputs : list Command.input) :
  forall s : Command.t,
    current_only (Extension.ws (Command.ext s)) (sockets (Extension.world (Command.ext s))) ->
    let s' := Command.run toUpperCase atob PricingData_decode_toJSON inputs s in
    current_only (Extension.ws (Command.ext s')) (sockets (Extension.world (Command.ext s'))).
Proof.
  induction inputs as [ | i inputs IH]; intros s H; [exact H | ].
  cbv zeta. cbn [Command.run fold_left]. apply IH.
  destruct i as [typed | c]; cbn [Command.step].
  - apply showStock_current_only. exact H.
  - cbn [Command.set_ext Command.ext]. apply extension_step_current_only. exact H.
Qed.

(** X10. With the command in the picture: after any sequence of command
    runs, subscriptions, deactivations and socket events, starting from the
    freshly loaded extension, at most one socket is connecting or open. *)
Theorem command_single_live_connection
    (net : nat -> request -> net_result) (inputs : list Command.input) :
  live_connections
    (Extension.world
       (Command.ext (Command.run toUpperCase atob PricingData_decode_toJSON inputs
                       (Command.init (fresh net))))) <= 1.
Proof.
  unfold live_connections.
  apply (current_only_live
           (Extension.ws
              (Command.ext (Command.run toUpperCase atob PricingData_decode_toJSON inputs
                              (Command.init (fresh net)))))).
  apply (command_run_current_only inputs (Command.init (fresh net))). reflexivity.
Qed.


End CommandLifecycle.


(** ** Retrying with the new session *)

(** X12. A retry carries the session of the bootstrap that preceded it.
    When the first attempt of [request] is refused, the bootstrap obtains
    the cookie [c] and the crumb [data rk], and the network accepts the
    request that carries exactly these, [request] returns that response;
    four HTTP requests were sent and the instance holds the new session. *)
Theorem retry_uses_new_session (u : string) (p : list (string * jsval))
    (s : YahooFinance.t) (rc rk r : response) :
  let n := sent (YahooFinance.world s) in
  let c := opt_index0 (set_cookie rc) in
  accepts YahooFinance.validateStatus
          (net (YahooFinance.world s) n (YahooFinance.data_request u p s)) = false ->
  net (YahooFinance.world s) (n + 1) cookie_request = NetResponse rc ->
  status rc = 404%Z ->
  truthy c = true ->
  net (YahooFinance.world s) (n + 2) (crumb_request c) = NetResponse rk ->
  default_validateStatus (status rk) = true ->
  net (YahooFinance.world s) (n + 3)
      {| url := u;
         headers := [("Cookie", c); ("User-Agent", VStr USER_AGENT)];
         params := ("crumb", data rk) :: p |} = NetResponse r ->
  YahooFinance.validateStatus (status r) = true ->
  exists s',
    YahooFinance.request u p s = (Ok r, s')
    /\ YahooFinance.cookie s' = c
    /\ YahooFinance.crumb s' = data rk
    /\ sent (YahooFinance.world s') = n + 4.
Proof.
  cbv zeta. intros Ha Hc Hs Ht Hk Hv Hr Hvr.
  unfold YahooFinance.request, YahooFinance.maxAttempts.
  destruct (request_loop_retry u p 0 2 s Ha) as (s1 & E & Hn1 & Hs1 & _).
  rewrite E.
  pose proof (initialize_frame s1) as (Fn & _). cbv zeta in Fn.
  replace (sent (YahooFinance.world s) + 1) with (sent (YahooFinance.world s1)) in Hc by lia.
  replace (sent (YahooFinance.world s) + 2) with (S (sent (YahooFinance.world s1))) in Hk by lia.
  rewrite <- Hn1 in Hc, Hk.
  destruct (initialize_sends_two s1 rc rk Hc Hs Ht Hk Hv) as (s2 & Ei & Ec & Ek & Hs2).
  rewrite Ei in Fn |- *. cbn [snd] in Fn.
  assert (Hr2 : net (YahooFinance.world s2) (sent (YahooFinance.world s2))
                    (YahooFinance.data_request u p s2) = NetResponse r).
  { unfold YahooFinance.data_request. rewrite Ec, Ek, Fn, Hn1, Hs2, Hs1.
    replace (S (S (S (sent (YahooFinance.world s))))) with (sent (YahooFinance.world s) + 3)
      by lia.
    exact Hr. }
  destruct (request_loop_returns u p 1 1 s2 r Hr2 Hvr) as (s' & El & Hs' & Hc' & Hk').
  exists s'. repeat split; [exact El | congruence | congruence | lia].
Qed.

(** The quote endpoint of AAPL refuses the request that carries the stale
    crumb and accepts the one that carries the new crumb. *)
Lemma retry_uses_new_session_witness :
  let fresh_only := fun (_ : nat) (req : request) =>
    if (url req =? YAHOO_COOKIE_URL)%string then NetResponse Sample.cookie_reply
    else if (url req =? YAHOO_CRUMB_URL)%string
         then NetResponse (Sample.crumb_reply (VStr "n3wCrumb"))
         else if strict_eq_string (assoc "crumb" (params req)) "n3wCrumb"
              then Sample.reply 404 (Sample.quote_body VNull)
              else Sample.reply 401 (VStr "Invalid Crumb") in
  let s := Sample.session fresh_only in
  option_map status
    (match fst (YahooFinance.fetchTickerQuote "AAPL" s) with
     | Ok r => Some r
     | Throw _ => None
     end) = Some 404%Z
  /\ YahooFinance.crumb (snd (YahooFinance.fetchTickerQuote "AAPL" s)) = VStr "n3wCrumb"
  /\ sent (YahooFinance.world (snd (YahooFinance.fetchTickerQuote "AAPL" s))) = 4.
Proof.
  intros fresh_only s.
  edestruct (retry_uses_new_session (YAHOO_QUOTE_URL ++ "AAPL")
               [("modules", VStr "quoteType,summaryDetail,assetProfile");
                ("corsDomain", VStr "finance.yahoo.com");
                ("formatted", VStr "false");
                ("symbol", VStr "AAPL")] s
               Sample.cookie_reply (Sample.crumb_reply (VStr "n3wCrumb")))
    as (s' & E & _ & Ek & Hn); [reflexivity .. | ].
  unfold YahooFinance.fetchTickerQuote. rewrite E. cbn [fst snd].
  repeat split; [exact Ek | exact Hn].
Defined.

(** ** More on the guarded revision, the handler, and disposal *)

(** X13. The guarded revision wants status 200 for the crumb.  A crumb
    response with another success status (which Axios accepts) makes
    [initialize] fail: the new cookie is kept, the crumb is the old one,
    and both causes are logged before the "Initialization failed" error. *)
Theorem guarded_crumb_needs_200 (s : YahooFinanceGuarded.t) (rc rk : response) :
  net (YahooFinanceGuarded.world s) (sent (YahooFinanceGuarded.world s)) cookie_request
  = NetResponse rc ->
  YahooFinanceGuarded.isValidResponse (status rc) = true ->
  truthy (opt_index0 (set_cookie rc)) = true ->
  net (YahooFinanceGuarded.world s) (S (sent (YahooFinanceGuarded.world s)))
      (crumb_request (opt_index0 (set_cookie rc))) = NetResponse rk ->
  default_validateStatus (status rk) = true ->
  status rk <> 200%Z ->
  let s' := snd (YahooFinanceGuarded.initialize s) in
  fst (YahooFinanceGuarded.initialize s) = Throw (Error "Initialization failed")
  /\ YahooFinanceGuarded.cookie s' = opt_index0 (set_cookie rc)
  /\ YahooFinanceGuarded.crumb s' = YahooFinanceGuarded.crumb s
  /\ firstn 2 (trace (YahooFinanceGuarded.world s'))
     = [Console Err "Failed to initialize Yahoo Finance API:"
          (Some (Error "Failed to fetch crumb"));
        Console Err "Failed to fetch crumb" (Some (Error "Failed to get crumb"))].
Proof.
  intros Hc Hs Ht Hk Hv Hne. cbv zeta.
  unfold YahooFinanceGuarded.initialize, try_catch, bind, YahooFinanceGuarded.fetchCookie,
    try_catch, bind, YahooFinanceGuarded.get, YahooFinanceGuarded.in_world, axios_get.
  rewrite Hc, Hs. cbn [ret].
  unfold YahooFinanceGuarded.extractCookie, or_else. rewrite Ht.
  unfold YahooFinanceGuarded.fetchCrumb.
  cbn [YahooFinanceGuarded.set_cookie_field YahooFinanceGuarded.set_world
         YahooFinanceGuarded.cookie YahooFinanceGuarded.world net sent].
  rewrite Ht. cbn [negb].
  unfold try_catch, bind, YahooFinanceGuarded.get, YahooFinanceGuarded.in_world, axios_get.
  cbn [YahooFinanceGuarded.set_cookie_field YahooFinanceGuarded.set_world
         YahooFinanceGuarded.cookie YahooFinanceGuarded.world net sent].
  rewrite Hk, Hv. unfold lift_result, YahooFinanceGuarded.extractCrumb.
  apply Z.eqb_neq in Hne. rewrite Hne. cbn. repeat split.
Qed.

Lemma guarded_crumb_needs_200_witness :
  let net := fun (_ : nat) (req : request) =>
    if (url req =? YAHOO_COOKIE_URL)%string then NetResponse Sample.cookie_reply
    else Sample.reply 204 (VStr "") in
  fst (YahooFinanceGuarded.initialize (Sample.guarded_session net))
  = Throw (Error "Initialization failed")
  /\ YahooFinanceGuarded.crumb (snd (YahooFinanceGuarded.initialize (Sample.guarded_session net)))
     = VStr "mT7xQkP0aZ1".
Proof.
  intros net.
  destruct (guarded_crumb_needs_200 (Sample.guarded_session net) Sample.cookie_reply
              {| status := 204; set_cookie := VUndefined; data := VStr "" |})
    as (H1 & _ & H3 & _); try reflexivity; [discriminate | ].
  split; [exact H1 | exact H3].
Defined.

Section HandlerTotality.

Variable atob : jsval -> result string.
Variable PricingData_decode_toJSON : list Byte.byte -> result (list (string * jsval)).


End HandlerTotality.

Lemma update_socket_twice (f : socket -> socket) :
  (forall s, f (f s) = f s) ->
  forall (i : nat) (l : list socket),
    update_socket i f (update_socket i f l) = update_socket i f l.
Proof.
  intros Hf i l. revert i.
  induction l as [ | x l IH]; intros [ | i]; cbn [update_socket]; try reflexivity.
  - rewrite Hf. reflexivity.
  - rewrite IH. reflexivity.
Qed.

Lemma close_socket_twice (s : socket) : close_socket (close_socket s) = close_socket s.
Proof.
  unfold close_socket at 1. rewrite (quiet_close s). reflexivity.
Qed.

(** X15. Disposal is idempotent on the connection: [dispose] leaves
    [webSocket] pointing at the closed socket, and a second [dispose] (resp.
    [deactivate]) finds every socket as the first one left it.  In any
    state, not only the reachable ones. *)
Theorem dispose_twice :
  (forall s : YahooFinance.t,
      let s1 := snd (YahooFinance.dispose s) in
      let s2 := snd (YahooFinance.dispose s1) in
      YahooFinance.webSocket s1 = YahooFinance.webSocket s
      /\ sockets (YahooFinance.world s2) = sockets (YahooFinance.world s1))
  /\ (forall e : Extension.t,
      let e1 := snd (Extension.deactivate e) in
      let e2 := snd (Extension.deactivate e1) in
      Extension.ws e1 = Extension.ws e
      /\ sockets (Extension.world e2) = sockets (Extension.world e1)).
Proof.
  split.
  - intros s. cbv zeta. unfold YahooFinance.dispose.
    destruct (YahooFinance.webSocket s) as [id | ] eqn:E; cbn; rewrite E; cbn.
    + split; [reflexivity | apply update_socket_twice, close_socket_twice].
    + split; reflexivity.
  - intros e. cbv zeta. unfold Extension.deactivate.
    destruct (Extension.ws e) as [id | ] eqn:E; cbn; rewrite ?E; cbn.
    + split; [reflexivity | apply update_socket_twice, close_socket_twice].
    + split; reflexivity.
Qed.

(** ** The update indicator *)

Lemma prefix_skip (p t : string) :
  prefix p t = true -> t = p ++ Indicator.skip (String.length p) t.
Proof.
  revert t. induction p as [ | a p IH]; intros t; cbn [prefix String.length Indicator.skip].
  - reflexivity.
  - destruct t as [ | b t]; cbn [prefix Indicator.skip]; [discriminate | ].
    destruct (Ascii.ascii_dec a b) as [-> | ]; cbv iota; [ | discriminate].
    intros H. cbn [append]. f_equal. apply IH. exact H.
Qed.

Lemma prefix_append (p q : string) : prefix p (p ++ q) = true.
Proof.
  induction p as [ | a p IH]; cbn [prefix append]; [destruct q; reflexivity | ].
  destruct (Ascii.ascii_dec a a); cbv iota; [exact IH | congruence].
Qed.

Lemma skip_append (p q : string) : Indicator.skip (String.length p) (p ++ q) = q.
Proof. induction p as [ | a p IH]; cbn; [reflexivity | exact IH]. Qed.

Lemma replace_here (p r t : string) :
  prefix p t = true ->
  Indicator.replace p r t = r ++ Indicator.skip (String.length p) t.
Proof. intros H. destruct t; cbn [Indicator.replace]; rewrite H; reflexivity. Qed.

Lemma replace_later (p r : string) (c : Ascii.ascii) (t : string) :
  prefix p (String c t) = false ->
  Indicator.replace p r (String c t) = String c (Indicator.replace p r t).
Proof. intros H. cbn [Indicator.replace]. rewrite H. reflexivity. Qed.

Lemma occurs_prefix (p t : string) : prefix p t = true -> occurs p t = true.
Proof. intros H. destruct t; cbn [occurs]; rewrite H; reflexivity. Qed.

(** A pattern that does not occur: the text comes back as it is. *)
Lemma replace_absent (p r t : string) :
  occurs p t = false -> Indicator.replace p r t = t.
Proof.
  induction t as [ | c t IH]; cbn [occurs]; intros H; apply orb_false_elim in H;
    destruct H as [Hp Ho].
  - cbn [Indicator.replace]. rewrite Hp. reflexivity.
  - rewrite (replace_later p r c t Hp), (IH Ho). reflexivity.
Qed.

(** The replacement of a pattern that starts with [a] by a text that starts
    with [a] keeps every prefix that does not mention [a]. *)
Lemma replace_keeps_prefix (a : Ascii.ascii) (p r : string) :
  forall w t : string,
    mentions a w = false ->
    prefix w (Indicator.replace (String a p) (String a r) t) = true ->
    prefix w t = true.
Proof.
  induction w as [ | b w IH]; intros t Hm; [intros _; destruct t; reflexivity | ].
  cbn [mentions] in Hm. apply orb_false_elim in Hm. destruct Hm as [Hab Hw].
  destruct (prefix (String a p) t) eqn:Hp.
  - rewrite (replace_here _ _ _ Hp). cbn [append prefix].
    destruct (Ascii.ascii_dec b a) as [-> | ]; cbv iota; [ | discriminate].
    rewrite Ascii.eqb_refl in Hab. discriminate.
  - destruct t as [ | c t].
    + cbn [Indicator.replace]. rewrite Hp. cbn [prefix]. discriminate.
    + rewrite (replace_later _ _ c t Hp). cbn [prefix].
      destruct (Ascii.ascii_dec b c); cbv iota; [ | discriminate].
      apply IH. exact Hw.
Qed.

(** X16. The update indicator comes back.  On a text that does not hold
    the filled marker, [blinkIndicator] followed by its timeout callback
    gives the text back, character for character; a text that holds the
    outline marker shows the filled one in between; and a timeout that
    finds no filled marker (the text was rewritten meanwhile) leaves the
    text alone. *)
Theorem indicator_round_trip (text : string) :
  occurs Indicator.FILLED text = false ->
  Indicator.blinkIndicator_timeout (Indicator.blinkIndicator text) = text
  /\ Indicator.blinkIndicator_timeout text = text
  /\ (occurs Indicator.OUTLINE text = true ->
      occurs Indicator.FILLED (Indicator.blinkIndicator text) = true).
Proof.
  unfold Indicator.blinkIndicator_timeout, Indicator.blinkIndicator.
  intros H. repeat apply conj.
  - induction text as [ | c text IH].
    + reflexivity.
    + cbn [occurs] in H. apply orb_false_elim in H. destruct H as [Hf Ho].
      destruct (prefix Indicator.OUTLINE (String c text)) eqn:Hp.
      * rewrite (replace_here _ _ _ Hp).
        rewrite (replace_here _ _ _ (prefix_append Indicator.FILLED _)).
        rewrite skip_append. symmetry. apply prefix_skip. exact Hp.
      * rewrite (replace_later _ _ c text Hp).
        assert (Hq : prefix Indicator.FILLED
                       (String c (Indicator.replace Indicator.OUTLINE Indicator.FILLED text))
                     = false).
        { destruct (prefix Indicator.FILLED
                      (String c (Indicator.replace Indicator.OUTLINE Indicator.FILLED text)))
            eqn:Hq; [ | reflexivity].
          exfalso. revert Hq Hf. unfold Indicator.FILLED at 1 3. cbn [prefix].
          match goal with
          | |- context [Ascii.ascii_dec ?a c] => destruct (Ascii.ascii_dec a c)
          end; cbv iota; [ | discriminate].
          intros Hq Hf.
          assert (Ht : prefix "(circle-filled)" text = true).
          { eapply (replace_keeps_prefix _ "(circle-outline)" "(circle-filled)"
                      "(circle-filled)" text); cycle 1; [exact Hq | reflexivity]. }
          congruence. }
        rewrite (replace_later _ _ c _ Hq), (IH Ho). reflexivity.
  - apply replace_absent. exact H.
  - clear H. induction text as [ | c text IH]; cbn [occurs].
    + cbn. discriminate.
    + destruct (prefix Indicator.OUTLINE (String c text)) eqn:Hp.
      * intros _. rewrite (replace_here _ _ _ Hp).
        apply occurs_prefix, prefix_append.
      * cbn [orb]. intros Ho. rewrite (replace_later _ _ c text Hp).
        cbn [occurs]. rewrite (IH Ho). apply orb_true_r.
Qed.

(** The text the constructor sets: blinking shows the filled marker, and
    the timeout restores the text. *)
Lemma indicator_round_trip_witness :
  Indicator.blinkIndicator Indicator.initial_text = "- (-%) $(circle-filled)"
  /\ Indicator.blinkIndicator_timeout (Indicator.blinkIndicator Indicator.initial_text)
     = Indicator.initial_text.
Proof.
  split; [reflexivity | ].
  apply (indicator_round_trip Indicator.initial_text). reflexivity.
Defined.

(** ** A quote, end to end *)



Section EndToEnd.

Variable toUpperCase : string -> string.


End EndToEnd.

